(** * User service (dockerfiles/user-service/app.py)

    A shallow embedding of the HTTP user service: the connection-pool
    helpers, the schema bootstrap, the request handlers [do_GET] and
    [do_POST] of [UserHandler], the metrics they update, and the start-up
    retry loop.  Handlers are written in a small state-and-exception monad
    so that [try]/[except]/[finally] and early [return] read as in the
    Python source. *)

From Stdlib Require Import ZArith Ascii String List Bool Lia.
From stdpp Require Import base option list strings pretty gmap.

Local Open Scope string_scope.
Local Open Scope Z_scope.
Local Set Warnings "-register-all".

(** ** Text: the [str] operations the handlers use

    [self.path] and header values are decoded by [http.server] as
    ISO-8859-1, one character per byte, so [string] (a list of bytes)
    represents them exactly. *)

Definition code (c : ascii) : nat := nat_of_ascii c.

(** [str.startswith]. *)
Fixpoint startswith (p s : string) : bool :=
  match p, s with
  | EmptyString, _ => true
  | String a p', String b s' => if Ascii.eqb a b then startswith p' s' else false
  | String _ _, EmptyString => false
  end.

(** [str.split(sep)] for a one-character separator: never empty. *)
Fixpoint split (sep : ascii) (s : string) : list string :=
  match s with
  | EmptyString => [EmptyString]
  | String c s' =>
      if Ascii.eqb c sep then EmptyString :: split sep s'
      else match split sep s' with
           | [] => [String c EmptyString]
           | w :: ws => String c w :: ws
           end
  end.

(** [l[-1]] and [l[0]] on the result of a split. *)
Definition last_item (l : list string) : string := List.last l EmptyString.
Definition first_item (l : list string) : string := List.hd EmptyString l.

(** [needle in haystack] for two [str]. *)
Fixpoint contains (needle hay : string) : bool :=
  startswith needle hay ||
  match hay with
  | EmptyString => false
  | String _ hay' => contains needle hay'
  end.

(** The characters below U+0100 with Numeric_Type Decimal: '0'..'9'. *)
Definition is_decimal_char (c : ascii) : bool :=
  (48 <=? code c)%nat && (code c <=? 57)%nat.

(** The characters below U+0100 that [str.isdigit] accepts: the decimal
    digits and the superscripts U+00B2, U+00B3 and U+00B9
    (Numeric_Type Digit). *)
Definition is_digit_char (c : ascii) : bool :=
  is_decimal_char c
  || (code c =? 178)%nat || (code c =? 179)%nat || (code c =? 185)%nat.

Fixpoint all_chars (f : ascii -> bool) (s : string) : bool :=
  match s with
  | EmptyString => true
  | String c s' => f c && all_chars f s'
  end.

(** [str.isdigit]: at least one character, and all of them digits. *)
Definition isdigit (s : string) : bool :=
  match s with
  | EmptyString => false
  | _ => all_chars is_digit_char s
  end.

(** White space stripped by [int(str)]. *)
Definition is_space (c : ascii) : bool :=
  ((9 <=? code c)%nat && (code c <=? 13)%nat)
  || ((28 <=? code c)%nat && (code c <=? 32)%nat)
  || (code c =? 133)%nat || (code c =? 160)%nat.

Fixpoint lstrip (s : string) : string :=
  match s with
  | String c s' => if is_space c then lstrip s' else s
  | EmptyString => EmptyString
  end.

Fixpoint rev_string (s acc : string) : string :=
  match s with
  | EmptyString => acc
  | String c s' => rev_string s' (String c acc)
  end.

Definition strip (s : string) : string :=
  rev_string (lstrip (rev_string (lstrip s) EmptyString)) EmptyString.

Definition digit_value (c : ascii) : Z := Z.of_nat (code c) - 48.

(** Digits of an [int] literal after its first digit: single underscores
    are allowed between digits. *)
Fixpoint int_digits (s : string) (acc : Z) (after_underscore : bool) : option Z :=
  match s with
  | EmptyString => if after_underscore then None else Some acc
  | String c s' =>
      if is_decimal_char c then int_digits s' (acc * 10 + digit_value c) false
      else if (code c =? 95)%nat && negb after_underscore then int_digits s' acc true
      else None
  end.

(** CPython's default [sys.int_max_str_digits]: [int] refuses a text of
    more digits (underscores and sign not counted). *)
Definition int_max_str_digits : nat := 4300.

Fixpoint count_decimal (s : string) : nat :=
  match s with
  | EmptyString => O
  | String c s' => if is_decimal_char c then S (count_decimal s') else count_decimal s'
  end.

Definition int_unsigned (s : string) : option Z :=
  match s with
  | String c s' =>
      if is_decimal_char c then
        if (int_max_str_digits <? count_decimal s)%nat then None
        else int_digits s' (digit_value c) false
      else None
  | EmptyString => None
  end.

(** [int(s)] for a [str] in base 10: [None] stands for [ValueError]. *)
Definition py_int (s : string) : option Z :=
  match strip s with
  | String "+" s' => int_unsigned s'
  | String "-" s' => Z.opp <$> int_unsigned s'
  | s' => int_unsigned s'
  end.

(** ** Time stamps: [datetime] and [datetime.isoformat] *)

Record datetime := {
  year : nat; month : nat; day : nat;
  hour : nat; minute : nat; second : nat; microsecond : nat
}.

Definition digit_char (n : nat) : ascii := ascii_of_nat (48 + n mod 10).

(** [n] printed on [w] decimal places, in front of [acc]. *)
Fixpoint zero_padded (w n : nat) (acc : string) : string :=
  match w with
  | O => acc
  | S w' => zero_padded w' (n / 10) (String (digit_char n) acc)
  end.

(** [YYYY-MM-DDTHH:MM:SS], followed by [.ffffff] when the microsecond
    field is not zero. *)
Definition isoformat (d : datetime) : string :=
  zero_padded 4 (year d) (String "-"
  (zero_padded 2 (month d) (String "-"
  (zero_padded 2 (day d) (String "T"
  (zero_padded 2 (hour d) (String ":"
  (zero_padded 2 (minute d) (String ":"
  (zero_padded 2 (second d)
  (if (microsecond d =? 0)%nat then EmptyString
   else String "." (zero_padded 6 (microsecond d) EmptyString)))))))))))).

(** ** Values: what [json.loads] returns and [json.dumps] takes *)

Inductive pyval :=
| PNone
| PBool (b : bool)
| PInt (z : Z)
| PFloat (literal : string)
| PStr (s : string)
| PList (items : list pyval)
| PDict (entries : list (string * pyval)).   (* the items, one per key *)

Fixpoint assoc (k : string) (entries : list (string * pyval)) : option pyval :=
  match entries with
  | [] => None
  | (k', v) :: rest => if String.eqb k k' then Some v else assoc k rest
  end.

Definition is_str (k : string) (v : pyval) : bool :=
  match v with PStr s => String.eqb k s | _ => false end.

(** Exceptions the handlers can meet. *)
Inductive exn :=
| ValueError | TypeError | KeyError | UnicodeDecodeError | JSONDecodeError
| PoolError | DatabaseError.

(** [k in data]: membership for a dict, a list and a str; [TypeError] for
    the other values. *)
Definition py_in (k : string) (data : pyval) : exn + bool :=
  match data with
  | PDict entries => inr (bool_decide (is_Some (assoc k entries)))
  | PList items => inr (existsb (is_str k) items)
  | PStr s => inr (contains k s)
  | _ => inl TypeError
  end.

(** [data[k]] for a str key. *)
Definition py_getitem (data : pyval) (k : string) : exn + pyval :=
  match data with
  | PDict entries => match assoc k entries with Some v => inr v | None => inl KeyError end
  | _ => inl TypeError
  end.

(** ** Requests and responses *)

(** What [json.loads(self.rfile.read(content_length).decode('utf-8'))]
    evaluates to on the bytes the client sent. *)
Inductive body_outcome :=
| NotUtf8                 (* [decode] raises UnicodeDecodeError *)
| NotJson                 (* [json.loads] raises JSONDecodeError *)
| Parsed (data : pyval).

Record request := {
  path : string;
  content_length : option string;   (* the Content-Length header, if sent *)
  body : body_outcome
}.

Record response := {
  status : nat;
  content_type : string;
  payload : pyval                   (* the value given to [json.dumps] *)
}.

(** ** The store: the [users] table behind the connection pool *)

Record user_row := {
  u_id : Z; u_name : string; u_email : string; u_created_at : option datetime
}.

Record tables := {
  users : option (list user_row);   (* [None]: the table does not exist *)
  idx_users_email : bool
}.

Record store := {
  committed : tables;
  users_id_seq : Z                  (* next value of the SERIAL column *)
}.

Inductive statement :=
| CreateTable | CreateIndex | SelectAll | SelectById | SelectIdByEmail | InsertUser.

Inductive db_call :=
| Cursor | Execute (q : statement) | Commit | Rollback.

(** What one request cannot control: whether the pool hands out a
    connection, which store calls fail, how the driver renders a
    parameter that is not text, and the clocks. *)
Record env := {
  getconn_raises : bool;
  raises : db_call -> bool;
  adapt : pyval -> option string;
  time_start : Z;                   (* [time.time()] on entry, in clock ticks *)
  time_end : Z;                     (* [time.time()] in the [finally] block *)
  now : datetime;                   (* [datetime.now()] *)
  current_timestamp : datetime      (* [CURRENT_TIMESTAMP] of the store *)
}.

(** [SimpleConnectionPool]: [used] is [len(pool._used)]. *)
Record pool := { maxconn : nat; used : nat }.

Inductive connection := Conn.

Inductive level := DEBUG | INFO | WARNING | ERROR.

Inductive event :=
| Log (l : level) (msg : string)
| Sleep (seconds : Z)
| ThreadStart (target : string)
| ServeForever.

(** Module globals, the store, and the handler's output stream. *)
Record state := {
  connection_pool : option pool;
  database : store;
  transaction : option tables;      (* uncommitted view of the leased connection *)
  REQUEST_COUNT : gmap (string * string * string) nat;
  REQUEST_LATENCY : gmap string (list Z);
  USERS_COUNT : Z;
  DB_CONNECTIONS : Z;
  ERROR_COUNT : gmap string nat;
  wfile : list response;
  trace : list event
}.

(** Field updates. *)
Definition set_connection_pool (p : option pool) (s : state) : state :=
  {| connection_pool := p; database := database s; transaction := transaction s;
     REQUEST_COUNT := REQUEST_COUNT s; REQUEST_LATENCY := REQUEST_LATENCY s;
     USERS_COUNT := USERS_COUNT s; DB_CONNECTIONS := DB_CONNECTIONS s;
     ERROR_COUNT := ERROR_COUNT s; wfile := wfile s; trace := trace s |}.

Definition set_database (d : store) (s : state) : state :=
  {| connection_pool := connection_pool s; database := d; transaction := transaction s;
     REQUEST_COUNT := REQUEST_COUNT s; REQUEST_LATENCY := REQUEST_LATENCY s;
     USERS_COUNT := USERS_COUNT s; DB_CONNECTIONS := DB_CONNECTIONS s;
     ERROR_COUNT := ERROR_COUNT s; wfile := wfile s; trace := trace s |}.

Definition set_transaction (t : option tables) (s : state) : state :=
  {| connection_pool := connection_pool s; database := database s; transaction := t;
     REQUEST_COUNT := REQUEST_COUNT s; REQUEST_LATENCY := REQUEST_LATENCY s;
     USERS_COUNT := USERS_COUNT s; DB_CONNECTIONS := DB_CONNECTIONS s;
     ERROR_COUNT := ERROR_COUNT s; wfile := wfile s; trace := trace s |}.

Definition set_REQUEST_COUNT (m : gmap (string * string * string) nat) (s : state) : state :=
  {| connection_pool := connection_pool s; database := database s; transaction := transaction s;
     REQUEST_COUNT := m; REQUEST_LATENCY := REQUEST_LATENCY s;
     USERS_COUNT := USERS_COUNT s; DB_CONNECTIONS := DB_CONNECTIONS s;
     ERROR_COUNT := ERROR_COUNT s; wfile := wfile s; trace := trace s |}.

Definition set_REQUEST_LATENCY (m : gmap string (list Z)) (s : state) : state :=
  {| connection_pool := connection_pool s; database := database s; transaction := transaction s;
     REQUEST_COUNT := REQUEST_COUNT s; REQUEST_LATENCY := m;
     USERS_COUNT := USERS_COUNT s; DB_CONNECTIONS := DB_CONNECTIONS s;
     ERROR_COUNT := ERROR_COUNT s; wfile := wfile s; trace := trace s |}.

Definition set_USERS_COUNT (n : Z) (s : state) : state :=
  {| connection_pool := connection_pool s; database := database s; transaction := transaction s;
     REQUEST_COUNT := REQUEST_COUNT s; REQUEST_LATENCY := REQUEST_LATENCY s;
     USERS_COUNT := n; DB_CONNECTIONS := DB_CONNECTIONS s;
     ERROR_COUNT := ERROR_COUNT s; wfile := wfile s; trace := trace s |}.

Definition set_DB_CONNECTIONS (n : Z) (s : state) : state :=
  {| connection_pool := connection_pool s; database := database s; transaction := transaction s;
     REQUEST_COUNT := REQUEST_COUNT s; REQUEST_LATENCY := REQUEST_LATENCY s;
     USERS_COUNT := USERS_COUNT s; DB_CONNECTIONS := n;
     ERROR_COUNT := ERROR_COUNT s; wfile := wfile s; trace := trace s |}.

Definition set_ERROR_COUNT (m : gmap string nat) (s : state) : state :=
  {| connection_pool := connection_pool s; database := database s; transaction := transaction s;
     REQUEST_COUNT := REQUEST_COUNT s; REQUEST_LATENCY := REQUEST_LATENCY s;
     USERS_COUNT := USERS_COUNT s; DB_CONNECTIONS := DB_CONNECTIONS s;
     ERROR_COUNT := m; wfile := wfile s; trace := trace s |}.

Definition set_wfile (w : list response) (s : state) : state :=
  {| connection_pool := connection_pool s; database := database s; transaction := transaction s;
     REQUEST_COUNT := REQUEST_COUNT s; REQUEST_LATENCY := REQUEST_LATENCY s;
     USERS_COUNT := USERS_COUNT s; DB_CONNECTIONS := DB_CONNECTIONS s;
     ERROR_COUNT := ERROR_COUNT s; wfile := w; trace := trace s |}.

Definition set_trace (t : list event) (s : state) : state :=
  {| connection_pool := connection_pool s; database := database s; transaction := transaction s;
     REQUEST_COUNT := REQUEST_COUNT s; REQUEST_LATENCY := REQUEST_LATENCY s;
     USERS_COUNT := USERS_COUNT s; DB_CONNECTIONS := DB_CONNECTIONS s;
     ERROR_COUNT := ERROR_COUNT s; wfile := wfile s; trace := t |}.

(** ** The monad: state, exceptions and early [return] *)

Inductive outcome (A : Type) :=
| Normal (a : A)        (* the statement ran to its end *)
| Returned              (* a [return] was executed *)
| Raised (e : exn).     (* an exception is propagating *)
Arguments Normal {A} a.
Arguments Returned {A}.
Arguments Raised {A} e.

Definition M (A : Type) : Type := state -> outcome A * state.

#[global] Instance M_ret : MRet M := fun A a s => (Normal a, s).

#[global] Instance M_bind : MBind M := fun A B f m s =>
  match m s with
  | (Normal a, s') => f a s'
  | (Returned, s') => (Returned, s')
  | (Raised e, s') => (Raised e, s')
  end.

Definition raise {A} (e : exn) : M A := fun s => (Raised e, s).
Definition return_ {A} : M A := fun s => (Returned, s).
Definition gets {A} (f : state -> A) : M A := fun s => (Normal (f s), s).
Definition modify (f : state -> state) : M unit := fun s => (Normal tt, f s).

Definition lift {A} (x : exn + A) : M A :=
  match x with inl e => raise e | inr a => mret a end.

(** [try: body / except <classes>: handler]. *)
Definition try_except {A} (body : M A) (classes : exn -> bool) (handler : M A) : M A :=
  fun s =>
    match body s with
    | (Raised e, s') => if classes e then handler s' else (Raised e, s')
    | r => r
    end.

(** [try: body / finally: final]: [final] runs however [body] ends. *)
Definition try_finally {A} (body : M A) (final : M unit) : M A :=
  fun s =>
    match body s with
    | (r, s') =>
        match final s' with
        | (Normal _, s'') => (r, s'')
        | (Returned, s'') => (Returned, s'')
        | (Raised e, s'') => (Raised e, s'')
        end
    end.

(** A method call: a [return] in the body ends the call normally. *)
Definition call (body : M unit) : M unit :=
  fun s =>
    match body s with
    | (Returned, s') => (Normal tt, s')
    | r => r
    end.

Definition Exception (e : exn) : bool := true.

Definition is_JSONDecodeError (e : exn) : bool :=
  match e with JSONDecodeError => true | _ => false end.

(** ** Metrics and logging *)

Definition inc_counter `{Countable K} (k : K) (m : gmap K nat) : gmap K nat :=
  <[k := S (m !!! k)]> m.

Definition observe (k : string) (v : Z) (m : gmap string (list Z)) : gmap string (list Z) :=
  <[k := ((m !!! k) ++ [v])%list]> m.

(** [REQUEST_COUNT.labels(method=.., endpoint=.., status=..).inc()]. *)
Definition request_count_inc (method endpoint status : string) : M unit :=
  modify (fun s => set_REQUEST_COUNT (inc_counter (method, endpoint, status) (REQUEST_COUNT s)) s).

(** [ERROR_COUNT.labels(type=..).inc()]. *)
Definition error_count_inc (type : string) : M unit :=
  modify (fun s => set_ERROR_COUNT (inc_counter type (ERROR_COUNT s)) s).

(** [REQUEST_LATENCY.labels(endpoint=..).observe(latency)]. *)
Definition request_latency_observe (endpoint : string) (latency : Z) : M unit :=
  modify (fun s => set_REQUEST_LATENCY (observe endpoint latency (REQUEST_LATENCY s)) s).

Definition logger (l : level) (msg : string) : M unit :=
  modify (fun s => set_trace (trace s ++ [Log l msg])%list s).

Definition sleep (seconds : Z) : M unit :=
  modify (fun s => set_trace (trace s ++ [Sleep seconds])%list s).

(** ** Store gateway *)

(** The tables a statement on the leased connection sees. *)
Definition view (s : state) : tables :=
  default (committed (database s)) (transaction s).

Definition db_guard (e : env) (c : db_call) : M unit :=
  if raises e c then raise DatabaseError else mret tt.

(** [conn.cursor()]. *)
Definition cursor (e : env) : M unit := db_guard e Cursor.

(** A statement opens the transaction on the tables it sees. *)
Definition in_transaction {A} (run : tables -> M A) : M A :=
  t ← gets view;
  modify (set_transaction (Some t));;
  run t.

(** [CREATE TABLE IF NOT EXISTS users (...)]. *)
Definition create_table (e : env) : M unit :=
  db_guard e (Execute CreateTable);;
  in_transaction (fun t =>
    match users t with
    | Some _ => mret tt
    | None => modify (set_transaction
                (Some {| users := Some []; idx_users_email := idx_users_email t |}))
    end).

(** [CREATE INDEX IF NOT EXISTS idx_users_email ON users(email)]. *)
Definition create_index (e : env) : M unit :=
  db_guard e (Execute CreateIndex);;
  in_transaction (fun t =>
    match users t with
    | Some rows => modify (set_transaction
                     (Some {| users := Some rows; idx_users_email := true |}))
    | None => raise DatabaseError
    end).

(** [SELECT id, name, email, created_at FROM users LIMIT 100], then
    [fetchall()]. *)
Definition select_all (e : env) : M (list user_row) :=
  db_guard e (Execute SelectAll);;
  in_transaction (fun t =>
    match users t with
    | Some rows => mret (take 100 rows)
    | None => raise DatabaseError
    end).

(** [SELECT id, name, email, created_at FROM users WHERE id = %s], then
    [fetchone()]. *)
Definition select_by_id (e : env) (id : Z) : M (option user_row) :=
  db_guard e (Execute SelectById);;
  in_transaction (fun t =>
    match users t with
    | Some rows => mret (List.find (fun r => u_id r =? id) rows)
    | None => raise DatabaseError
    end).

(** A statement parameter bound to a VARCHAR column: text as it is, any
    other value as the driver and the server render it, if they do. *)
Definition as_text (e : env) (v : pyval) : option string :=
  match v with PStr s => Some s | _ => adapt e v end.

(** [SELECT id FROM users WHERE email = %s], then [fetchone()]. *)
Definition select_id_by_email (e : env) (email : pyval) : M (option Z) :=
  db_guard e (Execute SelectIdByEmail);;
  in_transaction (fun t =>
    match users t, as_text e email with
    | Some rows, Some em =>
        mret (u_id <$> List.find (fun r => String.eqb (u_email r) em) rows)
    | _, _ => raise DatabaseError
    end).

(** [INSERT INTO users (name, email) VALUES (%s, %s) RETURNING id,
    created_at], then [fetchone()].  The columns are VARCHAR(100) and
    [email] is UNIQUE. *)
Definition insert_user (e : env) (name email : pyval) : M (Z * datetime) :=
  db_guard e (Execute InsertUser);;
  in_transaction (fun t =>
    match users t, as_text e name, as_text e email with
    | Some rows, Some nm, Some em =>
        if (100 <? String.length nm)%nat || (100 <? String.length em)%nat
           || existsb (fun r => String.eqb (u_email r) em) rows
        then raise DatabaseError
        else
          id ← gets (fun s => users_id_seq (database s));
          modify (fun s => set_database
                    {| committed := committed (database s); users_id_seq := id + 1 |} s);;
          modify (set_transaction
                    (Some {| users := Some (rows ++ [ {| u_id := id; u_name := nm; u_email := em;
                                                        u_created_at := Some (current_timestamp e) |} ])%list;
                             idx_users_email := idx_users_email t |}));;
          mret (id, current_timestamp e)
    | _, _, _ => raise DatabaseError
    end).

(** [conn.commit()]. *)
Definition commit (e : env) : M unit :=
  db_guard e Commit;;
  modify (fun s =>
    match transaction s with
    | Some t => set_transaction None
                  (set_database {| committed := t; users_id_seq := users_id_seq (database s) |} s)
    | None => s
    end).

(** [conn.rollback()]. *)
Definition rollback (e : env) : M unit :=
  db_guard e Rollback;;
  modify (set_transaction None).

(** [connection_pool.getconn()]: [PoolError] when every connection is
    leased or none can be opened. *)
Definition getconn (e : env) : M connection :=
  p ← gets connection_pool;
  match p with
  | Some p =>
      if getconn_raises e || (maxconn p <=? used p)%nat then raise PoolError
      else modify (set_connection_pool (Some {| maxconn := maxconn p; used := S (used p) |}));;
           mret Conn
  | None => raise PoolError
  end.

(** [connection_pool.putconn(conn)]: the lease ends and the pool rolls
    back what the connection left uncommitted. *)
Definition putconn (c : connection) : M unit :=
  modify (fun s =>
    match connection_pool s with
    | Some p => set_transaction None
                  (set_connection_pool (Some {| maxconn := maxconn p; used := pred (used p) |}) s)
    | None => s
    end).

Definition get_db_connection (e : env) : M (option connection) :=
  p ← gets connection_pool;
  if bool_decide (is_Some p) then
    try_except
      (c ← getconn e; mret (Some c))
      Exception
      (error_count_inc "db_connection";;
       logger ERROR "Failed to get DB connection";;
       mret None)
  else mret None.

Definition release_db_connection (conn : option connection) : M unit :=
  p ← gets connection_pool;
  match p, conn with
  | Some _, Some c => putconn c
  | _, _ => mret tt
  end.

Definition init_database (e : env) : M bool :=
  conn ← get_db_connection e;
  match conn with
  | None => mret false
  | Some c =>
      try_finally
        (try_except
           (cursor e;;
            create_table e;;
            create_index e;;
            commit e;;
            logger INFO "Database initialized successfully";;
            mret true)
           Exception
           (logger ERROR "Failed to initialize database";;
            mret false))
        (release_db_connection (Some c))
  end.

(** ** The user resource handler *)

Module UserHandler.

Definition _send_response (data : pyval) (status : nat) : M unit :=
  modify (fun s => set_wfile
    (wfile s ++ [ {| status := status; content_type := "application/json";
                    payload := data |} ])%list s).

Definition _send_error (message : string) (status : nat) : M unit :=
  error_count_inc "http_error";;
  _send_response (PDict [("error", PStr message)]) status.

(** [row[3].isoformat() if row[3] else None]. *)
Definition created_at_json (t : option datetime) : pyval :=
  match t with Some d => PStr (isoformat d) | None => PNone end.

Definition user_json (row : user_row) : pyval :=
  PDict [("id", PInt (u_id row)); ("name", PStr (u_name row));
         ("email", PStr (u_email row));
         ("created_at", created_at_json (u_created_at row))].

Definition do_GET (e : env) (self : request) : M unit :=
  call (
    let start_time := time_start e in
    try_finally
      (if String.eqb (path self) "/health" then
         request_count_inc "GET" "/health" "200";;
         pool ← gets connection_pool;
         let db_status := if bool_decide (is_Some pool) then "connected" else "disconnected" in
         _send_response (PDict [("status", PStr "healthy");
                                ("service", PStr "user-service");
                                ("timestamp", PStr (isoformat (now e)));
                                ("database", PStr db_status);
                                ("version", PStr "1.0.0")]) 200
       else if String.eqb (path self) "/users" then
         request_count_inc "GET" "/users" "200";;
         conn ← get_db_connection e;
         match conn with
         | None => _send_error "Database unavailable" 503;; return_
         | Some c =>
             try_finally
               (try_except
                  (cursor e;;
                   rows ← select_all e;
                   let users := map user_json rows in
                   _send_response (PDict [("users", PList users);
                                          ("count", PInt (Z.of_nat (length users)));
                                          ("timestamp", PStr (isoformat (now e)))]) 200;;
                   modify (set_USERS_COUNT (Z.of_nat (length users))))
                  Exception
                  (logger ERROR "Failed to fetch users";;
                   _send_error "Internal server error" 500))
               (release_db_connection (Some c))
         end
       else if startswith "/users/" (path self) then
         let user_id := last_item (split "/" (path self)) in
         request_count_inc "GET" "/users/{id}" "200";;
         if negb (isdigit user_id) then
           _send_error "Invalid user ID" 400;; return_
         else
           conn ← get_db_connection e;
           match conn with
           | None => _send_error "Database unavailable" 503;; return_
           | Some c =>
               try_finally
                 (try_except
                    (cursor e;;
                     id ← lift (from_option inr (inl ValueError) (py_int user_id));
                     row ← select_by_id e id;
                     match row with
                     | Some row => _send_response (user_json row) 200
                     | None => _send_error "User not found" 404
                     end)
                    Exception
                    (logger ERROR "Failed to fetch user";;
                     _send_error "Internal server error" 500))
                 (release_db_connection (Some c))
           end
       else
         request_count_inc "GET" "unknown" "404";;
         _send_error "Not found" 404)
      (let latency := time_end e - start_time in
       let endpoint := first_item (split "?" (path self)) in
       request_latency_observe endpoint latency)).

(** [int(self.headers.get('Content-Length', 0))]. *)
Definition header_content_length (self : request) : exn + Z :=
  match content_length self with
  | None => inr 0
  | Some h => from_option inr (inl ValueError) (py_int h)
  end.

(** [json.loads(post_data.decode('utf-8'))]. *)
Definition json_loads (self : request) : M pyval :=
  match body self with
  | NotUtf8 => raise UnicodeDecodeError
  | NotJson => raise JSONDecodeError
  | Parsed data => mret data
  end.

(** ['name' not in data or 'email' not in data]. *)
Definition lacks_name_or_email (data : pyval) : exn + bool :=
  match py_in "name" data with
  | inl ex => inl ex
  | inr false => inr true
  | inr true =>
      match py_in "email" data with
      | inl ex => inl ex
      | inr b => inr (negb b)
      end
  end.

Definition do_POST (e : env) (self : request) : M unit :=
  call (
    let start_time := time_start e in
    try_finally
      (if String.eqb (path self) "/users" then
         content_length ← lift (header_content_length self);
         if content_length =? 0 then
           _send_error "Empty request body" 400;; return_
         else
           data ← try_except (json_loads self) is_JSONDecodeError
                    (_send_error "Invalid JSON" 400;; return_);
           missing ← lift (lacks_name_or_email data);
           if missing : bool then
             _send_error "Name and email are required" 400;; return_
           else
             conn ← get_db_connection e;
             match conn with
             | None => _send_error "Database unavailable" 503;; return_
             | Some c =>
                 try_finally
                   (try_except
                      (cursor e;;
                       email ← lift (py_getitem data "email");
                       found ← select_id_by_email e email;
                       if bool_decide (is_Some found) then
                         _send_error "Email already exists" 409;; return_
                       else
                         name ← lift (py_getitem data "name");
                         email ← lift (py_getitem data "email");
                         '(user_id, created_at) ← insert_user e name email;
                         commit e;;
                         request_count_inc "POST" "/users" "201";;
                         _send_response (PDict [("id", PInt user_id);
                                                ("name", name);
                                                ("email", email);
                                                ("created_at", PStr (isoformat created_at));
                                                ("message", PStr "User created successfully");
                                                ("timestamp", PStr (isoformat (now e)))]) 201;;
                         modify (fun s => set_USERS_COUNT (USERS_COUNT s + 1) s))
                      Exception
                      (rollback e;;
                       logger ERROR "Failed to create user";;
                       _send_error "Internal server error" 500))
                   (release_db_connection (Some c))
             end
       else
         request_count_inc "POST" "unknown" "404";;
         _send_error "Not found" 404)
      (let latency := time_end e - start_time in
       request_latency_observe (path self) latency)).

End UserHandler.

(** ** Start-up *)

(** The module-level [try] around [SimpleConnectionPool(1, 10, ...)]:
    [constructed] tells whether the constructor returned. *)
Definition create_connection_pool (constructed : bool) : M unit :=
  try_except
    ((if constructed
      then modify (set_connection_pool (Some {| maxconn := 10; used := 0 |}))
      else raise PoolError);;
     modify (set_DB_CONNECTIONS 10);;
     logger INFO "Database connection pool created")
    Exception
    (logger ERROR "Failed to create connection pool";;
     modify (set_connection_pool None)).

Definition max_retries : nat := 5.

Definition attempt_message (i : nat) : string :=
  "Attempting to initialize database (attempt " +:+ pretty (i + 1)%nat +:+ "/"
  +:+ pretty max_retries +:+ ")...".

(** [for i in range(max_retries): ... break ... else: ...]; [envs i] is
    the environment of attempt [i]. *)
Fixpoint bootstrap_loop (envs : nat -> env) (range : list nat) : M unit :=
  match range with
  | i :: rest =>
      logger INFO (attempt_message i);;
      ok ← init_database (envs i);
      if ok : bool then logger INFO "Database initialized successfully"
      else sleep 5;; bootstrap_loop envs rest
  | [] => logger WARNING "Failed to initialize database after multiple attempts"
  end.

Definition emit (ev : event) : M unit :=
  modify (fun s => set_trace (trace s ++ [ev])%list s).

(** The [__main__] block up to [server.serve_forever()]. *)
Definition main (envs : nat -> env) : M unit :=
  logger INFO "Starting User Service...";;
  bootstrap_loop envs (seq 0 max_retries);;
  emit (ThreadStart "simulate_background_load");;
  emit (ThreadStart "update_metrics_periodically");;
  logger INFO "User service started on port 8000";;
  emit ServeForever.

(** The process before the module body has run. *)
Definition fresh (db : store) : state :=
  {| connection_pool := None; database := db; transaction := None;
     REQUEST_COUNT := ∅; REQUEST_LATENCY := ∅; USERS_COUNT := 0;
     DB_CONNECTIONS := 0; ERROR_COUNT := ∅; wfile := []; trace := [] |}.

(** ** Vocabulary of the statements *)

(** The handler leaves the observation [f] of the state as it found it. *)
Definition preserves {X A} (f : state -> X) (m : M A) : Prop :=
  forall s, f (m s).2 = f s.

(** [get_db_connection] will hand out a connection. *)
Definition leases (e : env) (s : state) : bool :=
  match connection_pool s with
  | Some p => negb (getconn_raises e) && negb (maxconn p <=? used p)%nat
  | None => false
  end.


Definition json_response (st : nat) (data : pyval) : response :=
  {| status := st; content_type := "application/json"; payload := data |}.

Definition error_response (st : nat) (message : string) : response :=
  json_response st (PDict [("error", PStr message)]).

Definition json_field (k : string) (r : response) : option pyval :=
  match payload r with PDict entries => assoc k entries | _ => None end.






(** The bootstrap attempt made in environment [e] from state [s] succeeds. *)
Definition init_succeeds (e : env) (s : state) : bool :=
  leases e s && negb (raises e Cursor) && negb (raises e (Execute CreateTable))
  && negb (raises e (Execute CreateIndex)) && negb (raises e Commit).

(** The events of the start-up trace that make up the retry schedule. *)
Definition is_schedule (ev : event) : bool :=
  match ev with
  | Sleep _ | ServeForever | Log WARNING _ => true
  | Log INFO msg => startswith "Attempting to initialize database" msg
  | _ => false
  end.

(** [k] failed attempts, each followed by its delay. *)
Definition failed_attempts (k : nat) : list event :=
  flat_map (fun i => [Log INFO (attempt_message i); Sleep 5]) (seq 0 k).

(** What the schedule shows after the failed attempts: the attempt that
    succeeded, or the warning once the range is used up. *)
Definition last_word (range : list nat) (k : nat) : list event :=
  match range !! k with
  | Some i => [Log INFO (attempt_message i)]
  | None => [Log WARNING "Failed to initialize database after multiple attempts"]
  end.

(** ** Sample data *)

Definition noon : datetime :=
  {| year := 2024; month := 3; day := 9; hour := 12; minute := 0; second := 0;
     microsecond := 0 |}.

(** An environment in which nothing fails. *)
Definition calm : env :=
  {| getconn_raises := false; raises := fun _ => false; adapt := fun _ => None;
     time_start := 100; time_end := 107; now := noon; current_timestamp := noon |}.

(** An environment in which the store cannot be reached. *)
Definition outage : env :=
  {| getconn_raises := true; raises := fun _ => true; adapt := fun _ => None;
     time_start := 100; time_end := 107; now := noon; current_timestamp := noon |}.

Definition ann : user_row :=
  {| u_id := 7; u_name := "Ann"; u_email := "ann@example.org";
     u_created_at := Some noon |}.

Definition one_user : store :=
  {| committed := {| users := Some [ann]; idx_users_email := true |};
     users_id_seq := 8 |}.

(** The service after a successful pool construction, one user stored. *)
Definition serving : state :=
  set_connection_pool (Some {| maxconn := 10; used := 0 |}) (fresh one_user).



Definition get (p : string) : request :=
  {| path := p; content_length := None; body := NotJson |}.

Definition post (p length : string) (b : body_outcome) : request :=
  {| path := p; content_length := Some length; body := b |}.

Definition superscript_two : string := String (ascii_of_nat 178) EmptyString.

(** ** The metrics endpoint *)

(** The metrics registry as [generate_latest] reads it. *)
Definition registry (s : state) :=
  (REQUEST_COUNT s, REQUEST_LATENCY s, USERS_COUNT s, DB_CONNECTIONS s, ERROR_COUNT s).

Module MetricsHandler.
Section Exposition.
(** [prometheus_client]'s content type and text exposition, and the
    page [BaseHTTPRequestHandler.send_error] writes for a status. *)
Variable CONTENT_TYPE_LATEST : string.
Variable generate_latest :
  gmap (string * string * string) nat * gmap string (list Z) * Z * Z * gmap string nat
  -> string.
Variable send_error : nat -> response.

Definition do_GET (self : request) : M unit :=
  if String.eqb (path self) "/metrics" then
    request_count_inc "GET" "/metrics" "200";;
    exposition ← gets (fun s => generate_latest (registry s));
    modify (fun s => set_wfile
      (wfile s ++ [ {| status := 200; content_type := CONTENT_TYPE_LATEST;
                      payload := PStr exposition |} ])%list s)
  else
    modify (fun s => set_wfile (wfile s ++ [send_error 404])%list s).

End Exposition.
End MetricsHandler.

(** Calls of the handlers' methods, made one after the other.  An
    exception that leaves a method ends that request only. *)
Inductive served :=
| Scrape (self : request)                   (* [MetricsHandler.do_GET] *)
| UserGet (e : env) (self : request)        (* [UserHandler.do_GET] *)
| UserPost (e : env) (self : request).      (* [UserHandler.do_POST] *)

Section Serving.
Variable CONTENT_TYPE_LATEST : string.
Variable generate_latest :
  gmap (string * string * string) nat * gmap string (list Z) * Z * Z * gmap string nat
  -> string.
Variable send_error : nat -> response.

Definition serve_one (c : served) : M unit :=
  match c with
  | Scrape self => MetricsHandler.do_GET CONTENT_TYPE_LATEST generate_latest send_error self
  | UserGet e self => UserHandler.do_GET e self
  | UserPost e self => UserHandler.do_POST e self
  end.

Fixpoint serve (calls : list served) (s : state) : state :=
  match calls with
  | [] => s
  | c :: rest => serve rest (serve_one c s).2
  end.
End Serving.

(** ** Background samplers *)






(** [update_metrics_periodically], for [passes] turns of its loop. *)
Fixpoint update_metrics_periodically (passes : nat) : M unit :=
  match passes with
  | O => mret tt
  | S n =>
      try_except
        (p ← gets connection_pool;
         match p with
         | Some p =>
             modify (set_DB_CONNECTIONS (Z.of_nat (maxconn p) - Z.of_nat (used p)))
         | None => mret tt
         end)
        Exception
        (logger DEBUG "Metrics update error");;
      sleep 30;;
      update_metrics_periodically n
  end.

(** ** Vocabulary of the further properties *)

(** Weakest precondition of a piece of handler code. *)
Definition wp {A} (m : M A) (Q : outcome A -> state -> Prop) (s : state) : Prop :=
  Q (m s).1 (m s).2.

Definition then_wp {A B} (k : A -> M B) (Q : outcome B -> state -> Prop)
    (r : outcome A) (s : state) : Prop :=
  match r with
  | Normal a => wp (k a) Q s
  | Returned => Q Returned s
  | Raised ex => Q (Raised ex) s
  end.

Definition except_wp {A} (classes : exn -> bool) (handler : M A)
    (Q : outcome A -> state -> Prop) (r : outcome A) (s : state) : Prop :=
  match r with
  | Raised ex => if classes ex then wp handler Q s else Q (Raised ex) s
  | _ => Q r s
  end.

Definition after_final {A} (Q : outcome A -> state -> Prop) (r : outcome A)
    (r' : outcome unit) (s : state) : Prop :=
  match r' with
  | Normal _ => Q r s
  | Returned => Q Returned s
  | Raised ex => Q (Raised ex) s
  end.

Definition finally_wp {A} (final : M unit) (Q : outcome A -> state -> Prop)
    (r : outcome A) (s : state) : Prop :=
  wp final (after_final Q r) s.

Definition call_wp (Q : outcome unit -> state -> Prop) (r : outcome unit) (s : state) : Prop :=
  match r with
  | Returned => Q (Normal tt) s
  | _ => Q r s
  end.

(** The row an INSERT adds. *)
Definition new_user (e : env) (db : store) (name email : string) : user_row :=
  {| u_id := users_id_seq db; u_name := name; u_email := email;
     u_created_at := Some (current_timestamp e) |}.

(** The exception classes that can leave [do_POST]. *)
Definition escapes_do_POST (ex : exn) : bool :=
  match ex with
  | ValueError | UnicodeDecodeError | TypeError | DatabaseError => true
  | _ => false
  end.

(** The three ways a [do_POST] ends, from state [s] to state [s']. *)
Inductive post_outcome (e : env) (s s' : state) : outcome unit -> Prop :=
| Created rows name email nm em :
    wfile s' = (wfile s ++ [json_response 201 (PDict
                  [("id", PInt (users_id_seq (database s))); ("name", name);
                   ("email", email);
                   ("created_at", PStr (isoformat (current_timestamp e)));
                   ("message", PStr "User created successfully");
                   ("timestamp", PStr (isoformat (now e)))])])%list ->
    committed (database s')
    = {| users := Some (rows ++ [new_user e (database s) nm em])%list;
         idx_users_email := idx_users_email (view s) |} ->
    users_id_seq (database s') = users_id_seq (database s) + 1 ->
    USERS_COUNT s' = USERS_COUNT s + 1 ->
    transaction s' = None ->
    connection_pool s' = connection_pool s ->
    users (view s) = Some rows ->
    as_text e name = Some nm -> as_text e email = Some em ->
    (String.length nm <= 100)%nat -> (String.length em <= 100)%nat ->
    existsb (fun r => String.eqb (u_email r) em) rows = false ->
    post_outcome e s s' (Normal tt)
| Rejected st message :
    (400 <= st)%nat ->
    wfile s' = (wfile s ++ [error_response st message])%list ->
    committed (database s') = committed (database s) ->
    users_id_seq (database s) <= users_id_seq (database s') ->
    USERS_COUNT s' = USERS_COUNT s ->
    (transaction s = None -> transaction s' = None) ->
    connection_pool s' = connection_pool s ->
    post_outcome e s s' (Normal tt)
| Crashed ex :
    escapes_do_POST ex = true ->
    wfile s' = wfile s ->
    committed (database s') = committed (database s) ->
    users_id_seq (database s) <= users_id_seq (database s') ->
    USERS_COUNT s' = USERS_COUNT s ->
    (transaction s = None -> transaction s' = None) ->
    connection_pool s' = connection_pool s ->
    post_outcome e s s' (Raised ex).

(** A JSON value that is no container: [in] raises [TypeError] on it. *)
Definition is_scalar (v : pyval) : bool :=
  match v with
  | PNone | PBool _ | PInt _ | PFloat _ => true
  | _ => false
  end.

(** A JSON array or text in which [in] finds both key names. *)
Definition names_found (v : pyval) : bool :=
  match v with
  | PList items => existsb (is_str "name") items && existsb (is_str "email") items
  | PStr t => contains "name" t && contains "email" t
  | _ => false
  end.

(** A call that [MetricsHandler] counts. *)
Definition is_scrape (c : served) : bool :=
  match c with
  | Scrape self => String.eqb (path self) "/metrics"
  | _ => false
  end.

(** A response that reports an error. *)
Definition is_error (r : response) : bool := (400 <=? status r)%nat.

(** Between requests: no transaction is open, e-mails and ids are
    distinct, and the id sequence is ahead of every stored id. *)
Definition store_ok (s : state) : Prop :=
  transaction s = None
  /\ forall rows, users (committed (database s)) = Some rows ->
       NoDup (map u_email rows) /\ NoDup (map u_id rows)
       /\ Forall (fun r => u_id r < users_id_seq (database s)) rows.

(** ** Further sample data *)

(** A well-formed create request for a user who is not stored yet. *)
Definition create_bob : request :=
  post "/users" "44"
    (Parsed (PDict [("name", PStr "Bob"); ("email", PStr "bob@example.org")])).

Definition bob : user_row :=
  {| u_id := 8; u_name := "Bob"; u_email := "bob@example.org";
     u_created_at := Some noon |}.

(** An environment in which only [conn.cursor()] fails. *)
Definition no_cursor : env :=
  {| getconn_raises := false;
     raises := fun c => match c with Cursor => true | _ => false end;
     adapt := fun _ => None;
     time_start := 100; time_end := 107; now := noon; current_timestamp := noon |}.





(** A scrape, a create and a list request that finds the store gone. *)
Definition sample_calls : list served :=
  [Scrape (get "/metrics"); UserPost calm create_bob; UserGet outage (get "/users")].

(** * Properties *)

Arguments inc_counter : simpl never.
Arguments observe : simpl never.

(** ** Text *)

Example split_path : split "/" "/users/abc/7" = [EmptyString; "users"; "abc"; "7"].
Proof. reflexivity. Qed.

Example split_trailing : last_item (split "/" "/users/") = EmptyString.
Proof. reflexivity. Qed.

Example py_int_samples :
  py_int "999999" = Some 999999 /\ py_int " +1_000 " = Some 1000 /\
  py_int "abc" = None /\ py_int EmptyString = None /\ py_int "1__0" = None /\
  py_int (String (ascii_of_nat 178) EmptyString) = None /\
  isdigit (String (ascii_of_nat 178) EmptyString) = true /\ isdigit EmptyString = false.
Proof. repeat split; reflexivity. Qed.

Example isoformat_sample :
  isoformat {| year := 2024; month := 3; day := 9; hour := 7; minute := 5;
               second := 0; microsecond := 0 |} = "2024-03-09T07:05:00" /\
  isoformat {| year := 2024; month := 12; day := 31; hour := 23; minute := 59;
               second := 58; microsecond := 1200 |} = "2024-12-31T23:59:58.001200".
Proof. split; reflexivity. Qed.



(** A path under [/users/] is neither [/health] nor [/users]. *)
Lemma users_prefix_routes p :
  startswith "/users/" p = true ->
  String.eqb p "/health" = false /\ String.eqb p "/users" = false.
Proof.
  intros H. split.
  - destruct (String.eqb_spec p "/health") as [->|]; [discriminate H | reflexivity].
  - destruct (String.eqb_spec p "/users") as [->|]; [discriminate H | reflexivity].
Qed.

(** ** Frame rules: what a piece of handler code leaves alone *)

Section Frame.
Context {X : Type} (f : state -> X).

Lemma preserves_ret {A} (a : A) : preserves f (mret a).
Proof. intros s. reflexivity. Qed.

Lemma preserves_raise {A} (e : exn) : preserves f (@raise A e).
Proof. intros s. reflexivity. Qed.

Lemma preserves_return {A} : preserves f (@return_ A).
Proof. intros s. reflexivity. Qed.

Lemma preserves_gets {A} (g : state -> A) : preserves f (gets g).
Proof. intros s. reflexivity. Qed.

Lemma preserves_lift {A} (x : exn + A) : preserves f (lift x).
Proof. destruct x; intros s; reflexivity. Qed.

Lemma preserves_modify (g : state -> state) :
  (forall s, f (g s) = f s) -> preserves f (modify g).
Proof. intros H s. apply H. Qed.

Lemma preserves_bind {A B} (m : M A) (k : A -> M B) :
  preserves f m -> (forall a, preserves f (k a)) -> preserves f (m ≫= k).
Proof.
  intros Hm Hk s. unfold mbind, M_bind. specialize (Hm s).
  destruct (m s) as [[a| |ex] s1]; simpl in *; try assumption.
  rewrite Hk. assumption.
Qed.

Lemma preserves_try_except {A} (body handler : M A) classes :
  preserves f body -> preserves f handler ->
  preserves f (try_except body classes handler).
Proof.
  intros Hb Hh s. unfold try_except. specialize (Hb s).
  destruct (body s) as [[a| |ex] s1]; simpl in *; try assumption.
  destruct (classes ex); simpl; [rewrite Hh|]; assumption.
Qed.

Lemma preserves_try_finally {A} (body : M A) (final : M unit) :
  preserves f body -> preserves f final ->
  preserves f (try_finally body final).
Proof.
  intros Hb Hf s. unfold try_finally. specialize (Hb s).
  destruct (body s) as [r s1]. specialize (Hf s1).
  destruct (final s1) as [[a| |ex] s2]; simpl in *; congruence.
Qed.

Lemma preserves_call (body : M unit) :
  preserves f body -> preserves f (call body).
Proof.
  intros Hb s. unfold call. specialize (Hb s).
  destruct (body s) as [[a| |ex] s1]; assumption.
Qed.
End Frame.

Ltac frame_step :=
  first
    [ assumption
    | apply preserves_ret
    | apply preserves_raise
    | apply preserves_return
    | apply preserves_gets
    | apply preserves_lift
    | apply preserves_try_except
    | apply preserves_try_finally
    | apply preserves_call
    | apply preserves_modify; intros ?s; repeat case_match; reflexivity
    | apply preserves_bind ].

Ltac frame :=
  repeat (intros;
          match goal with
          | |- preserves _ (match ?x with _ => _ end) => destruct x
          | |- preserves _ (let _ := _ in _) => cbv zeta
          | |- preserves _ _ => frame_step
          end).

Ltac unfold_ops :=
  unfold UserHandler._send_error, UserHandler._send_response,
    UserHandler.json_loads, request_count_inc,
    error_count_inc, request_latency_observe, logger, sleep, emit, cursor, create_table,
    create_index, select_all, select_by_id, select_id_by_email, insert_user, commit,
    rollback, db_guard, in_transaction.

(** ** Latency *)





(** ** Connections *)





(** ** Running a handler on a symbolic state *)

Ltac run_ops :=
  unfold init_database, get_db_connection, release_db_connection, getconn, putconn,
    create_connection_pool;
  unfold_ops;
  unfold call, try_finally, try_except, lift, raise, return_, gets, modify,
    mbind, M_bind, mret, M_ret;
  cbn.

Ltac exec := unfold UserHandler.do_GET, UserHandler.do_POST; run_ops.

(** Compute, and rewrite with the equations at hand, while it helps. *)
Ltac crunch :=
  repeat (progress (cbn; repeat match goal with
                          | H : ?l = _ |- context [?l] => rewrite H
                          end)).

(** With a connection to lease, the lease test of [getconn] passes. *)
Lemma leases_inv e s :
  leases e s = true ->
  exists p, connection_pool s = Some p /\ getconn_raises e = false
            /\ (maxconn p <=? used p)%nat = false.
Proof.
  unfold leases. destruct (connection_pool s) as [p|]; [|discriminate].
  intros [Hg Hu]%andb_true_iff. exists p. repeat split.
  - destruct (getconn_raises e); [discriminate|reflexivity].
  - apply negb_true_iff. assumption.
Qed.

(** ** Health check *)

(** The pool object exists exactly when its constructor returned. *)
Lemma pool_exists_iff_constructed constructed boot :
  bool_decide (is_Some (connection_pool (create_connection_pool constructed boot).2))
  = constructed.
Proof. destruct constructed; reflexivity. Qed.

Lemma health_response e self s :
  path self = "/health" ->
  UserHandler.do_GET e self s
  = (Normal tt, (UserHandler.do_GET e self s).2)
  /\ wfile (UserHandler.do_GET e self s).2
     = (wfile s ++ [json_response 200 (PDict
          [("status", PStr "healthy"); ("service", PStr "user-service");
           ("timestamp", PStr (isoformat (now e)));
           ("database", PStr (if bool_decide (is_Some (connection_pool s))
                              then "connected" else "disconnected"));
           ("version", PStr "1.0.0")])])%list.
Proof.
  intros Hp. destruct self as [p cl b]; simpl in Hp; subst p.
  exec. split; reflexivity.
Qed.

(** C9. [GET /health] always answers 200, and its [database] field is
    [connected] exactly when the pool constructor returned at start-up,
    [disconnected] otherwise.  Two runs in arbitrary environments (store
    reachable or not, any call failing or not) whose states come from the
    same construction outcome report the same database status. *)
Theorem health_reflects_pool_construction
    (constructed : bool) (boot : state) (e1 e2 : env) (self : request) (s1 s2 : state) :
  path self = "/health" ->
  let built := bool_decide (is_Some (connection_pool (create_connection_pool constructed boot).2)) in
  bool_decide (is_Some (connection_pool s1)) = built ->
  bool_decide (is_Some (connection_pool s2)) = built ->
  exists r1 r2,
    wfile (UserHandler.do_GET e1 self s1).2 = (wfile s1 ++ [r1])%list
    /\ wfile (UserHandler.do_GET e2 self s2).2 = (wfile s2 ++ [r2])%list
    /\ (UserHandler.do_GET e1 self s1).1 = Normal tt
    /\ (UserHandler.do_GET e2 self s2).1 = Normal tt
    /\ status r1 = 200%nat /\ status r2 = 200%nat
    /\ json_field "database" r1
       = Some (PStr (if constructed then "connected" else "disconnected"))
    /\ json_field "database" r2 = json_field "database" r1.
Proof.
  intros Hp built H1 H2. subst built.
  rewrite pool_exists_iff_constructed in H1, H2.
  destruct (health_response e1 self s1 Hp) as [Hr1 Hw1].
  destruct (health_response e2 self s2 Hp) as [Hr2 Hw2].
  rewrite H1 in Hw1. rewrite H2 in Hw2.
  eexists _, _. split; [exact Hw1|]. split; [exact Hw2|].
  rewrite Hr1, Hr2. repeat split.
Qed.

Lemma health_reflects_pool_construction_witness :
  exists r1 r2,
    wfile (UserHandler.do_GET calm (get "/health") serving).2 = (wfile serving ++ [r1])%list
    /\ wfile (UserHandler.do_GET outage (get "/health") serving).2 = (wfile serving ++ [r2])%list
    /\ (UserHandler.do_GET calm (get "/health") serving).1 = Normal tt
    /\ (UserHandler.do_GET outage (get "/health") serving).1 = Normal tt
    /\ status r1 = 200%nat /\ status r2 = 200%nat
    /\ json_field "database" r1 = Some (PStr "connected")
    /\ json_field "database" r2 = json_field "database" r1.
Proof.
  apply (health_reflects_pool_construction true (fresh one_user) calm outage
           (get "/health") serving serving); reflexivity.
Defined.

(** ** Listing users *)




(** ** Get user by id *)

Section GetUser.
Context (e : env) (self : request) (s : state).
Hypothesis Hroute : startswith "/users/" (path self) = true.
Let user_id := last_item (split "/" (path self)).
Let s' := (UserHandler.do_GET e self s).2.


Lemma get_user_unavailable :
  isdigit user_id = true -> leases e s = false ->
  wfile s' = (wfile s ++ [error_response 503 "Database unavailable"])%list.
Proof.
  intros Hd Hl. subst s'. unfold UserHandler.do_GET.
  destruct (users_prefix_routes _ Hroute) as [-> ->]. rewrite Hroute.
  fold user_id. rewrite Hd. unfold leases in Hl. run_ops.
  destruct (connection_pool s) as [p|] eqn:Hpool; crunch; [|reflexivity].
  destruct (getconn_raises e); crunch; [reflexivity|].
  change (negb false) with true in Hl. rewrite andb_true_l in Hl.
  apply negb_false_iff in Hl. crunch. reflexivity.
Qed.

Lemma get_user_lookup rows n :
  isdigit user_id = true -> leases e s = true ->
  raises e Cursor = false -> raises e (Execute SelectById) = false ->
  users (view s) = Some rows -> py_int user_id = Some n ->
  wfile s' = (wfile s ++ [match List.find (fun r => u_id r =? n) rows with
                          | Some row => json_response 200 (UserHandler.user_json row)
                          | None => error_response 404 "User not found"
                          end])%list.
Proof.
  intros Hd Hl Hc Hq Hrows Hn. subst s'. unfold UserHandler.do_GET.
  destruct (users_prefix_routes _ Hroute) as [-> ->]. rewrite Hroute.
  fold user_id. rewrite Hd, Hn.
  destruct (leases_inv e s Hl) as (pl & Hpool & Hg & Hfree).
  unfold view in Hrows. run_ops. unfold view. crunch.
  destruct (List.find _ rows); crunch; reflexivity.
Qed.

Lemma get_user_store_failure n :
  isdigit user_id = true -> leases e s = true -> py_int user_id = Some n ->
  raises e Cursor = true \/ raises e (Execute SelectById) = true \/ users (view s) = None ->
  wfile s' = (wfile s ++ [error_response 500 "Internal server error"])%list.
Proof.
  intros Hd Hl Hn Hfail. subst s'. unfold UserHandler.do_GET.
  destruct (users_prefix_routes _ Hroute) as [-> ->]. rewrite Hroute.
  fold user_id. rewrite Hd, Hn.
  destruct (leases_inv e s Hl) as (pl & Hpool & Hg & Hfree).
  unfold view in Hfail. run_ops. unfold view. crunch.
  destruct (raises e Cursor) eqn:Hc; crunch; [reflexivity|].
  destruct (raises e (Execute SelectById)) eqn:Hq; crunch; [reflexivity|].
  destruct Hfail as [?|[?|Hrows]]; try discriminate.
  crunch. reflexivity.
Qed.

Lemma get_user_not_an_int :
  isdigit user_id = true -> leases e s = true -> py_int user_id = None ->
  wfile s' = (wfile s ++ [error_response 500 "Internal server error"])%list.
Proof.
  intros Hd Hl Hn. subst s'. unfold UserHandler.do_GET.
  destruct (users_prefix_routes _ Hroute) as [-> ->]. rewrite Hroute.
  fold user_id. rewrite Hd, Hn.
  destruct (leases_inv e s Hl) as (pl & Hpool & Hg & Hfree).
  run_ops. crunch.
  destruct (raises e Cursor) eqn:Hc; crunch; reflexivity.
Qed.
End GetUser.









(** C3. The id segment made of the superscript two (byte 0xB2) passes
    [str.isdigit], but [int] rejects it: with a connection leased, no
    store call failing and no row of such an id, [GET /users/<0xB2>] is
    answered 500 "Internal server error", neither 400 nor 404. *)
Theorem superscript_id_answers_500 :
  let self := get ("/users/" +:+ superscript_two) in
  let user_id := last_item (split "/" (path self)) in
  startswith "/users/" (path self) = true
  /\ user_id = superscript_two
  /\ isdigit user_id = true
  /\ py_int user_id = None
  /\ leases calm serving = true
  /\ UserHandler.do_GET calm self serving
     = (Normal tt, (UserHandler.do_GET calm self serving).2)
  /\ wfile (UserHandler.do_GET calm self serving).2
     = [error_response 500 "Internal server error"]
  /\ database (UserHandler.do_GET calm self serving).2 = one_user.
Proof. cbv zeta. repeat split; vm_compute; reflexivity. Qed.



(** ** Create user *)

Lemma find_email_some rows em :
  (exists row, In row rows /\ u_email row = em) ->
  is_Some (List.find (fun r => String.eqb (u_email r) em) rows).
Proof.
  intros (row & Hin & Hem). induction rows as [|r rows IH]; [destruct Hin|].
  cbn. destruct (String.eqb_spec (u_email r) em) as [|Hne]; [eexists; reflexivity|].
  destruct Hin as [->|Hin]; [contradiction|]. apply IH, Hin.
Qed.

(** C2. A create-user request that passes validation and leases a
    connection, whose email is the email of a stored row and whose
    duplicate-check SELECT does not fail, is answered 409 "Email already
    exists"; the store (rows and id sequence) is left as it was.  Nothing
    is assumed about INSERT or COMMIT: they are not reached. *)
Theorem duplicate_email_conflict
    (e : env) (self : request) (s : state) (n : Z)
    (entries : list (string * pyval)) (name : pyval) (email : string)
    (rows : list user_row) :
  path self = "/users" ->
  UserHandler.header_content_length self = inr n -> n <> 0 ->
  body self = Parsed (PDict entries) ->
  assoc "name" entries = Some name ->
  assoc "email" entries = Some (PStr email) ->
  leases e s = true ->
  raises e Cursor = false ->
  raises e (Execute SelectIdByEmail) = false ->
  transaction s = None ->
  users (committed (database s)) = Some rows ->
  (exists row, In row rows /\ u_email row = email) ->
  let s' := (UserHandler.do_POST e self s).2 in
  wfile s' = (wfile s ++ [error_response 409 "Email already exists"])%list
  /\ (UserHandler.do_POST e self s).1 = Normal tt
  /\ database s' = database s
  /\ users (view s') = Some rows.
Proof.
  intros Hp Hcl Hn Hb Hname Hemail Hl Hc Hq Htx Hrows Hdup s'. subst s'.
  apply find_email_some in Hdup. destruct Hdup as [row Hfind].
  unfold UserHandler.do_POST. rewrite Hp, Hcl.
  destruct (leases_inv e s Hl) as (pl & Hpool & Hg & Hfree).
  apply Z.eqb_neq in Hn.
  unfold UserHandler.lacks_name_or_email, py_in, py_getitem.
  run_ops. unfold view. crunch. 
  repeat split.
Qed.

Lemma duplicate_email_conflict_witness :
  let self := post "/users" "48"
                (Parsed (PDict [("name", PStr "Ann B."); ("email", PStr "ann@example.org")])) in
  let s' := (UserHandler.do_POST calm self serving).2 in
  wfile s' = (wfile serving ++ [error_response 409 "Email already exists"])%list
  /\ (UserHandler.do_POST calm self serving).1 = Normal tt
  /\ database s' = database serving
  /\ users (view s') = Some [ann].
Proof.
  apply (duplicate_email_conflict calm _ serving 48
           [("name", PStr "Ann B."); ("email", PStr "ann@example.org")]
           (PStr "Ann B.") "ann@example.org" [ann]);
    try reflexivity; [lia|].
  exists ann. split; [left; reflexivity | reflexivity].
Defined.

(** *** Validation of the request body *)

Section Validation.
Context (e : env) (self : request) (s : state).
Hypothesis Hroute : path self = "/users".
Let s' := (UserHandler.do_POST e self s).2.

Lemma post_empty_body :
  UserHandler.header_content_length self = inr 0 ->
  wfile s' = (wfile s ++ [error_response 400 "Empty request body"])%list.
Proof.
  intros Hcl. subst s'. unfold UserHandler.do_POST. rewrite Hroute, Hcl.
  run_ops. reflexivity.
Qed.

Lemma post_invalid_json n :
  UserHandler.header_content_length self = inr n -> n <> 0 ->
  body self = NotJson ->
  wfile s' = (wfile s ++ [error_response 400 "Invalid JSON"])%list.
Proof.
  intros Hcl Hn Hb. subst s'. apply Z.eqb_neq in Hn.
  unfold UserHandler.do_POST, UserHandler.json_loads. rewrite Hroute, Hcl, Hb.
  run_ops. crunch. reflexivity.
Qed.

Lemma post_missing_fields n entries :
  UserHandler.header_content_length self = inr n -> n <> 0 ->
  body self = Parsed (PDict entries) ->
  assoc "name" entries = None \/ assoc "email" entries = None ->
  wfile s' = (wfile s ++ [error_response 400 "Name and email are required"])%list.
Proof.
  intros Hcl Hn Hb Hmiss. subst s'. apply Z.eqb_neq in Hn.
  unfold UserHandler.do_POST, UserHandler.json_loads, UserHandler.lacks_name_or_email, py_in.
  rewrite Hroute, Hcl, Hb. run_ops. crunch.
  destruct (assoc "name" entries) as [v|] eqn:Hname; cbn; [|reflexivity].
  destruct Hmiss as [Hmiss|Hmiss]; [discriminate|]. crunch. reflexivity.
Qed.

(** A body that is not UTF-8 raises [UnicodeDecodeError], which the
    [except json.JSONDecodeError] clause lets through: nothing is sent. *)
Lemma post_undecodable n :
  UserHandler.header_content_length self = inr n -> n <> 0 ->
  body self = NotUtf8 ->
  (UserHandler.do_POST e self s).1 = Raised UnicodeDecodeError /\ wfile s' = wfile s.
Proof.
  intros Hcl Hn Hb. subst s'. apply Z.eqb_neq in Hn.
  unfold UserHandler.do_POST, UserHandler.json_loads. rewrite Hroute, Hcl, Hb.
  run_ops. crunch. split; reflexivity.
Qed.
End Validation.

(** Empty [name] and [email] texts pass validation: the user is created. *)
Example post_empty_strings_accepted :
  let self := post "/users" "26"
                (Parsed (PDict [("name", PStr EmptyString); ("email", PStr EmptyString)])) in
  status <$> wfile (UserHandler.do_POST calm self serving).2 = [201%nat]
  /\ length <$> users (view (UserHandler.do_POST calm self serving).2) = Some 2%nat.
Proof. split; vm_compute; reflexivity. Qed.

(** C4. [POST /users] with [Content-Length: 1] and a body that is not
    UTF-8 (the byte 0xFF) passes the length check and fails to decode:
    [UnicodeDecodeError] leaves [do_POST], and no response is written,
    where a body that does not parse calls for 400 "Invalid JSON". *)
Theorem undecodable_body_gets_no_response :
  let self := post "/users" "1" NotUtf8 in
  UserHandler.header_content_length self = inr 1
  /\ UserHandler.do_POST calm self serving
     = (Raised UnicodeDecodeError, (UserHandler.do_POST calm self serving).2)
  /\ wfile (UserHandler.do_POST calm self serving).2 = []
  /\ wfile (UserHandler.do_POST calm (post "/users" "1" NotJson) serving).2
     = [error_response 400 "Invalid JSON"].
Proof. cbv zeta. repeat split; vm_compute; reflexivity. Qed.

(** ** Request counts *)

Lemma counted_then_kept method endpoint st (rest final : M unit) s :
  preserves REQUEST_COUNT rest -> preserves REQUEST_COUNT final ->
  REQUEST_COUNT (call (try_finally (request_count_inc method endpoint st;; rest) final) s).2
  = inc_counter (method, endpoint, st) (REQUEST_COUNT s).
Proof.
  intros Hk Hf.
  unfold call, try_finally, request_count_inc, modify, mbind, M_bind.
  set (s1 := set_REQUEST_COUNT _ s).
  specialize (Hk s1). destruct (rest s1) as [r s2]. cbn in Hk.
  specialize (Hf s2). destruct (final s2) as [[[]| |ex] s3]; cbn in Hf;
    destruct r as [[]| |ex']; cbn; rewrite Hf, Hk; reflexivity.
Qed.

Lemma gateway_keeps_counts e :
  preserves REQUEST_COUNT (get_db_connection e)
  /\ forall c, preserves REQUEST_COUNT (release_db_connection c).
Proof.
  split; [|intros c]; unfold get_db_connection, release_db_connection, getconn, putconn;
    unfold_ops; frame.
Qed.

(** Under [/users/] the counter labelled 200 is the one incremented,
    whatever is answered. *)
Lemma get_user_counts_as_200 e self s :
  startswith "/users/" (path self) = true ->
  REQUEST_COUNT (UserHandler.do_GET e self s).2
  = inc_counter ("GET", "/users/{id}", "200") (REQUEST_COUNT s).
Proof.
  intros Hroute. unfold UserHandler.do_GET.
  destruct (users_prefix_routes _ Hroute) as [-> ->]. rewrite Hroute.
  cbv zeta. destruct (gateway_keeps_counts e) as [Hget Hrel].
  apply counted_then_kept; unfold_ops; frame.
Qed.

(** C1. The request count does not follow the outcome.
    [GET /users/999999] is answered 404 and counted under status 200
    (no count under 404); [POST /users] with [Content-Length: 0] is
    answered 400 and a [POST /users] whose INSERT fails is answered 500,
    and neither is counted at all. *)
Theorem request_count_ignores_outcome :
  let absent := UserHandler.do_GET calm (get "/users/999999") serving in
  let empty := UserHandler.do_POST calm (post "/users" "0" NotJson) serving in
  let failing :=
    {| getconn_raises := false;
       raises := fun c => match c with Execute InsertUser => true | _ => false end;
       adapt := fun _ => None; time_start := 100; time_end := 107;
       now := noon; current_timestamp := noon |} in
  let failed := UserHandler.do_POST failing
                  (post "/users" "44"
                     (Parsed (PDict [("name", PStr "Bob"); ("email", PStr "bob@example.org")])))
                  serving in
  (wfile absent.2 = [error_response 404 "User not found"]
   /\ REQUEST_COUNT absent.2 !! ("GET", "/users/{id}", "404") = None
   /\ REQUEST_COUNT absent.2 !! ("GET", "/users/{id}", "200") = Some 1%nat)
  /\ (wfile empty.2 = [error_response 400 "Empty request body"]
      /\ REQUEST_COUNT empty.2 = ∅)
  /\ (wfile failed.2 = [error_response 500 "Internal server error"]
      /\ REQUEST_COUNT failed.2 = ∅).
Proof. cbv zeta. repeat split; vm_compute; reflexivity. Qed.

(** ** Start-up retries *)

Lemma init_succeeds_pool e s1 s2 :
  connection_pool s1 = connection_pool s2 -> init_succeeds e s1 = init_succeeds e s2.
Proof. intros H. unfold init_succeeds, leases. rewrite H. reflexivity. Qed.

(** [init_database] returns [True] exactly when [init_succeeds] says so;
    it gives its connection back and neither sleeps nor warns. *)
Lemma init_database_spec e s :
  exists s' evs,
    init_database e s = (Normal (init_succeeds e s), s')
    /\ connection_pool s' = connection_pool s
    /\ trace s' = (trace s ++ evs)%list
    /\ List.filter is_schedule evs = [].
Proof.
  unfold init_succeeds, leases. run_ops.
  destruct (connection_pool s) as [p|] eqn:Hpool; crunch.
  2: { exists s, []. rewrite app_nil_r. repeat split. assumption. }
  destruct (getconn_raises e); crunch.
  { eexists _, [_]. repeat split. cbn. assumption. }
  destruct (maxconn p <=? used p)%nat; crunch.
  { eexists _, [_]. repeat split. cbn. assumption. }
  destruct (raises e Cursor); crunch.
  { eexists _, [_]. repeat split. cbn. destruct p; reflexivity. }
  destruct (raises e (Execute CreateTable)); crunch.
  { eexists _, [_]. repeat split. cbn. destruct p; reflexivity. }
  unfold view.
  destruct (users (default (committed (database s)) (transaction s))) eqn:Hu; crunch.
  - destruct (raises e (Execute CreateIndex)); crunch.
    { eexists _, [_]. repeat split. cbn. destruct p; reflexivity. }
    destruct (raises e Commit); crunch.
    { eexists _, [_]. repeat split. cbn. destruct p; reflexivity. }
    eexists _, [_]. repeat split. cbn. destruct p; reflexivity.
  - destruct (raises e (Execute CreateIndex)); crunch.
    { eexists _, [_]. repeat split. cbn. destruct p; reflexivity. }
    destruct (raises e Commit); crunch.
    { eexists _, [_]. repeat split. cbn. destruct p; reflexivity. }
    eexists _, [_]. repeat split. cbn. destruct p; reflexivity.
Qed.

Lemma attempt_is_schedule i : is_schedule (Log INFO (attempt_message i)) = true.
Proof. reflexivity. Qed.

Lemma bootstrap_loop_spec envs range : forall s,
  exists s' evs k,
    bootstrap_loop envs range s = (Normal tt, s')
    /\ connection_pool s' = connection_pool s
    /\ trace s' = (trace s ++ evs)%list
    /\ (k <= length range)%nat
    /\ (forall j i, (j < k)%nat -> range !! j = Some i -> init_succeeds (envs i) s = false)
    /\ (forall i, range !! k = Some i -> init_succeeds (envs i) s = true)
    /\ List.filter is_schedule evs
       = (flat_map (fun i => [Log INFO (attempt_message i); Sleep 5]) (take k range)
          ++ last_word range k)%list.
Proof.
  induction range as [|i rest IH]; intros s.
  - exists (set_trace (trace s ++ [Log WARNING "Failed to initialize database after multiple attempts"])%list s), [Log WARNING "Failed to initialize database after multiple attempts"], 0%nat.
    repeat split; try reflexivity; try lia. intros i Hi. discriminate Hi.
  - cbn [bootstrap_loop]. unfold mbind, M_bind, logger at 1, modify.
    set (s1 := set_trace (trace s ++ [Log INFO (attempt_message i)])%list s).
    destruct (init_database_spec (envs i) s1) as (s2 & evs & Hrun & Hpool & Htr & Hsil).
    rewrite Hrun.
    assert (Hsame : init_succeeds (envs i) s1 = init_succeeds (envs i) s)
      by (apply init_succeeds_pool; reflexivity).
    rewrite Hsame. destruct (init_succeeds (envs i) s) eqn:Hok.
    + eexists _, (Log INFO (attempt_message i) :: evs ++ [Log INFO "Database initialized successfully"])%list, 0%nat.
      unfold logger, modify. repeat split.
      * cbn. assumption.
      * cbn. rewrite Htr. subst s1. cbn. rewrite <- !app_assoc. reflexivity.
      * cbn. lia.
      * intros j i' Hj. lia.
      * intros i' Hi'. cbn in Hi'. injection Hi' as <-. assumption.
      * cbn [List.filter]. rewrite attempt_is_schedule, List.filter_app, Hsil. reflexivity.
    + unfold sleep at 1, modify.
      set (s3 := set_trace (trace s2 ++ [Sleep 5])%list s2).
      destruct (IH s3) as (s4 & evs' & k & Hloop & Hpool' & Htr' & Hk & Hfail & Hwin & Hsched).
      exists s4, (Log INFO (attempt_message i) :: evs ++ Sleep 5 :: evs')%list, (S k).
      assert (Hp3 : connection_pool s3 = connection_pool s)
        by (subst s3; cbn; rewrite Hpool; reflexivity).
      repeat split.
      * exact Hloop.
      * rewrite Hpool'. exact Hp3.
      * rewrite Htr'. subst s3. cbn. rewrite Htr. subst s1. cbn.
        rewrite <- !app_assoc. reflexivity.
      * cbn. lia.
      * intros j i' Hj Hi'. destruct j as [|j]; cbn in Hi'.
        -- injection Hi' as <-. assumption.
        -- rewrite <- (init_succeeds_pool (envs i') s3 s Hp3). apply (Hfail j); [lia|assumption].
      * intros i' Hi'. cbn in Hi'.
        rewrite <- (init_succeeds_pool (envs i') s3 s Hp3). apply Hwin. assumption.
      * cbn [List.filter]. rewrite attempt_is_schedule, List.filter_app, Hsil.
        cbn [List.filter is_schedule app]. rewrite Hsched. reflexivity.
Qed.

(** C7. Start-up makes at most [max_retries] = 5 bootstrap attempts.
    Each failed attempt is followed by one [Sleep 5], always the same
    delay; the first successful attempt is the last one made; when all
    five fail the warning is logged.  In every case [main] goes on to
    [serve_forever]: it returns normally with [ServeForever] as the last
    event of the schedule. *)
Theorem bootstrap_retries (envs : nat -> env) (s : state) :
  exists (k : nat) (events : list event) (s' : state),
    main envs s = (Normal tt, s')
    /\ trace s' = (trace s ++ events)%list
    /\ (k <= max_retries)%nat
    /\ (forall i, (i < k)%nat -> init_succeeds (envs i) s = false)
    /\ ((k < max_retries)%nat -> init_succeeds (envs k) s = true)
    /\ List.filter is_schedule events
       = (failed_attempts k
          ++ (if (k <? max_retries)%nat then [Log INFO (attempt_message k)]
              else [Log WARNING "Failed to initialize database after multiple attempts"])
          ++ [ServeForever])%list.
Proof.
  unfold main. unfold mbind, M_bind, logger at 1, modify.
  set (s1 := set_trace (trace s ++ [Log INFO "Starting User Service..."])%list s).
  destruct (bootstrap_loop_spec envs (seq 0 max_retries) s1)
    as (s2 & evs & k & Hloop & Hpool & Htr & Hk & Hfail & Hwin & Hsched).
  rewrite Hloop. rewrite length_seq in Hk.
  assert (Hp1 : connection_pool s1 = connection_pool s) by reflexivity.
  exists k. eexists. eexists. unfold emit, logger, modify.
  split; [reflexivity|]. split.
  { cbn. rewrite Htr. subst s1. cbn. rewrite <- !app_assoc. reflexivity. }
  split; [assumption|]. split.
  { intros i Hi. rewrite <- (init_succeeds_pool (envs i) s1 s Hp1).
    apply (Hfail i); [assumption|]. apply lookup_seq. split; [reflexivity|]. unfold max_retries in *. lia. }
  split.
  { intros Hlt. rewrite <- (init_succeeds_pool (envs k) s1 s Hp1).
    apply Hwin. apply lookup_seq. split; [reflexivity|assumption]. }
  cbn [List.filter is_schedule app]. rewrite List.filter_app, Hsched.
  unfold failed_attempts, last_word. rewrite take_seq.
  replace (k `min` max_retries)%nat with k by lia.
  destruct (Nat.ltb_spec k max_retries) as [Hlt|Hge].
  - rewrite (proj2 (lookup_seq 0 max_retries k k)) by (split; [reflexivity|assumption]).
    cbn. rewrite <- !app_assoc. reflexivity.
  - rewrite lookup_seq_ge by assumption. cbn. rewrite <- !app_assoc. reflexivity.
Qed.

(** With the store out of reach the schedule is five attempts, five
    delays of five seconds, the warning, and the server all the same. *)
Example bootstrap_gives_up :
  List.filter is_schedule (trace (main (fun _ => outage) serving).2)
  = (failed_attempts 5
     ++ [Log WARNING "Failed to initialize database after multiple attempts"; ServeForever])%list
  /\ connection_pool (main (fun _ => outage) serving).2 = connection_pool serving.
Proof. split; vm_compute; reflexivity. Qed.

(** When the third attempt succeeds no fourth is made. *)
Example bootstrap_third_time_lucky :
  List.filter is_schedule
    (trace (main (fun i => if (i <? 2)%nat then outage else calm) serving).2)
  = (failed_attempts 2 ++ [Log INFO (attempt_message 2); ServeForever])%list.
Proof. vm_compute. reflexivity. Qed.

Lemma bootstrap_retries_witness :
  exists (k : nat) (events : list event) (s' : state),
    main (fun i => if (i <? 2)%nat then outage else calm) serving = (Normal tt, s')
    /\ trace s' = (trace serving ++ events)%list
    /\ (k <= max_retries)%nat
    /\ (forall i, (i < k)%nat ->
        init_succeeds (if (i <? 2)%nat then outage else calm) serving = false)
    /\ ((k < max_retries)%nat ->
        init_succeeds (if (k <? 2)%nat then outage else calm) serving = true)
    /\ List.filter is_schedule events
       = (failed_attempts k
          ++ (if (k <? max_retries)%nat then [Log INFO (attempt_message k)]
              else [Log WARNING "Failed to initialize database after multiple attempts"])
          ++ [ServeForever])%list.
Proof.
  apply (bootstrap_retries (fun i => if (i <? 2)%nat then outage else calm) serving).
Defined.

(** * Further properties *)

Arguments isoformat : simpl never.


(** ** Rules of the weakest-precondition calculus *)

Section WpRules.
Context {A : Type} (Q : outcome A -> state -> Prop) (s : state).

Lemma wp_ret (a : A) : Q (Normal a) s -> wp (mret a) Q s.
Proof. intros H. exact H. Qed.

Lemma wp_raise (ex : exn) : Q (Raised ex) s -> wp (raise ex) Q s.
Proof. intros H. exact H. Qed.

Lemma wp_return : Q Returned s -> wp return_ Q s.
Proof. intros H. exact H. Qed.

Lemma wp_gets (f : state -> A) : Q (Normal (f s)) s -> wp (gets f) Q s.
Proof. intros H. exact H. Qed.

Lemma wp_bind {B} (m : M B) (k : B -> M A) :
  wp m (then_wp k Q) s -> wp (m ≫= k) Q s.
Proof.
  unfold then_wp, wp, mbind, M_bind. destruct (m s) as [[b| |ex] s1]; intros H; exact H.
Qed.

Lemma wp_try_except (body handler : M A) classes :
  wp body (except_wp classes handler Q) s -> wp (try_except body classes handler) Q s.
Proof.
  unfold except_wp, wp, try_except. destruct (body s) as [[a| |ex] s1]; cbn [fst snd];
    try (intros H; exact H).
  destruct (classes ex); intros H; exact H.
Qed.

Lemma wp_try_finally (body : M A) (final : M unit) :
  wp body (finally_wp final Q) s -> wp (try_finally body final) Q s.
Proof.
  unfold finally_wp, after_final, wp, try_finally. destruct (body s) as [r s1].
  cbn [fst snd]. destruct (final s1) as [[u| |ex] s2]; intros H; exact H.
Qed.
End WpRules.

Lemma wp_modify (Q : outcome unit -> state -> Prop) s (f : state -> state) :
  Q (Normal tt) (f s) -> wp (modify f) Q s.
Proof. intros H. exact H. Qed.

Lemma wp_call (Q : outcome unit -> state -> Prop) s (body : M unit) :
  wp body (call_wp Q) s -> wp (call body) Q s.
Proof.
  unfold call_wp, wp, call. destruct (body s) as [[[]| |ex] s1]; intros H; exact H.
Qed.

Lemma wp_lift {A} (Q : outcome A -> state -> Prop) s (x : exn + A) :
  match x with inl ex => Q (Raised ex) s | inr a => Q (Normal a) s end ->
  wp (lift x) Q s.
Proof. destruct x; intros H; exact H. Qed.

(** Reading a property of a run off its weakest precondition. *)
Lemma wp_run {A} (m : M A) (Q : outcome A -> state -> Prop) s :
  wp m Q s -> Q (m s).1 (m s).2.
Proof. intros H. exact H. Qed.

Ltac head_of t :=
  lazymatch t with
  | ?f _ => head_of f
  | _ => t
  end.

Ltac wp_unfold_op :=
  lazymatch goal with
  | |- wp ?m _ _ =>
      let h := head_of m in
      first
        [ unfold h at 1
        | fail 1 "no rule for" m ]
  end.

(** Tests that are left as they stand: computing would only unfold them. *)
Ltac is_atomic x :=
  lazymatch x with
  | startswith _ _ => idtac
  | isdigit _ => idtac
  | py_int _ => idtac
  | contains _ _ => idtac
  | Nat.ltb _ _ => idtac
  | Nat.leb _ _ => idtac
  | String.eqb _ _ => idtac
  | Z.eqb _ _ => idtac
  | existsb _ _ => idtac
  | List.find _ _ => idtac
  | assoc _ _ => idtac
  end.

Ltac has_var x :=
  match x with
  | context [?v] => is_var v
  end.

(** Settle the test of a branch: use what is known about it, compute it,
    or split on it. *)
Ltac wp_case x :=
  first
    [ match goal with H : x = _ |- _ => rewrite H end
    | wp_split x ];
  cbn [negb orb andb]; cbv beta iota
with wp_split x :=
  lazymatch x with
  | negb ?a => wp_case a
  | orb ?a _ => wp_case a
  | andb ?a _ => wp_case a
  | match ?a with _ => _ end => wp_case a
  | from_option _ _ ?a => wp_case a; cbn [from_option]
  | bool_decide (is_Some ?a) =>
      first [ let x' := eval cbn in x in progress (change x with x') | wp_case a ]
  | _ =>
      first
        [ match goal with H : x = _ |- _ => rewrite H end
        | match goal with H : forall c, raises _ c = _ |- _ => rewrite H end
        | tryif has_var x then fail
          else (let v := eval vm_compute in x in change x with v)
        | is_atomic x; destruct x eqn:?
        | let x0 := eval cbv [Exception] in x in
          let x' := eval cbn in x0 in
          progress (change x with x')
        | match goal with
          | H : ?l = _ |- _ => match x with context [l] => rewrite H end
          end
        | destruct x eqn:? ]
  end.

Ltac wp_step :=
  lazymatch goal with
  | |- wp (_ ≫= _) _ _ => apply wp_bind
  | |- wp (mret _) _ _ => apply wp_ret
  | |- wp (modify _) _ _ => apply wp_modify
  | |- wp (gets _) _ _ => apply wp_gets
  | |- wp (raise _) _ _ => apply wp_raise
  | |- wp return_ _ _ => apply wp_return
  | |- wp (lift _) _ _ => apply wp_lift
  | |- wp (try_except _ _ _) _ _ => apply wp_try_except
  | |- wp (try_finally _ _) _ _ => apply wp_try_finally
  | |- wp (call _) _ _ => apply wp_call
  | |- wp (match ?x with _ => _ end) _ _ => wp_case x
  | |- wp (let _ := _ in _) _ _ => cbv zeta
  | |- wp _ _ _ => wp_unfold_op
  | |- then_wp _ _ _ _ => unfold then_wp at 1; cbv beta iota
  | |- except_wp _ _ _ _ _ => unfold except_wp at 1; cbv beta iota
  | |- finally_wp _ _ _ _ => unfold finally_wp at 1
  | |- after_final _ _ _ _ => unfold after_final at 1; cbv beta iota
  | |- call_wp _ _ _ => unfold call_wp at 1; cbv beta iota
  | |- match ?x with _ => _ end => wp_case x
  end.

Ltac wp_go := repeat wp_step.

(** ** Every way [do_POST] and [do_GET] can end *)

Ltac same_pool :=
  first
    [ reflexivity
    | assumption
    | match goal with |- Some _ = Some ?p => destruct p; reflexivity end
    | match goal with
      | H : connection_pool ?s = Some ?p |- _ = connection_pool ?s =>
          rewrite H; destruct p; reflexivity
      end ].

Ltac finish_post :=
  unfold view in *; cbn in *;
  first
    [ eapply Rejected;
      [ | reflexivity | reflexivity | cbn; lia | reflexivity
        | intros; first [assumption | reflexivity] | same_pool ];
      cbv; lia
    | eapply Crashed;
      [ reflexivity | reflexivity | reflexivity | cbn; lia | reflexivity
      | intros; first [assumption | reflexivity] | same_pool ]
    | eapply Created;
      [ reflexivity | reflexivity | reflexivity | reflexivity | reflexivity | same_pool
      | eassumption | eassumption | eassumption
      | apply Nat.ltb_ge; assumption | apply Nat.ltb_ge; assumption | eassumption ] ].

Ltac unfold_post :=
  unfold UserHandler.do_POST, UserHandler.header_content_length, UserHandler.json_loads,
    UserHandler.lacks_name_or_email, py_in, py_getitem.

Lemma do_POST_outcomes e self s :
  post_outcome e s (UserHandler.do_POST e self s).2 (UserHandler.do_POST e self s).1.
Proof.
  apply (wp_run (UserHandler.do_POST e self) (fun r s' => post_outcome e s s' r)).
  unfold_post. wp_go; finish_post.
Qed.

Lemma do_GET_outcomes e self s :
  (UserHandler.do_GET e self s).1 = Normal tt
  /\ (exists r, wfile (UserHandler.do_GET e self s).2 = (wfile s ++ [r])%list)
  /\ database (UserHandler.do_GET e self s).2 = database s
  /\ (transaction s = None -> transaction (UserHandler.do_GET e self s).2 = None)
  /\ connection_pool (UserHandler.do_GET e self s).2 = connection_pool s.
Proof.
  apply (wp_run (UserHandler.do_GET e self)
           (fun r s' => r = Normal tt
                        /\ (exists x, wfile s' = (wfile s ++ [x])%list)
                        /\ database s' = database s
                        /\ (transaction s = None -> transaction s' = None)
                        /\ connection_pool s' = connection_pool s)).
  unfold UserHandler.do_GET.
  wp_go; cbn;
    (split; [reflexivity | split; [eexists; reflexivity | split; [reflexivity|]]];
     split; [intros; first [assumption | reflexivity] |];
     same_pool).
Qed.


(** X2. [UserHandler.do_GET] is read-only on the store: committed tables
    and id sequence are what they were, whatever the path and whatever
    fails. *)
Theorem do_GET_read_only (e : env) (self : request) (s : state) :
  database (UserHandler.do_GET e self s).2 = database s.
Proof. apply do_GET_outcomes. Qed.


Lemma existsb_email_false rows em :
  existsb (fun r => String.eqb (u_email r) em) rows = false ->
  Forall (fun r => u_email r <> em) rows.
Proof.
  induction rows as [|r rows IH]; cbn; [constructor|].
  intros [Hr Hrows]%orb_false_iff. constructor; [|apply IH, Hrows].
  apply String.eqb_neq. exact Hr.
Qed.

(** X4. [do_POST] is all or nothing on the table.  From a state with no
    open transaction, either the committed tables and the user gauge are
    unchanged and no 201 was written, or exactly one row was appended:
    its id is the next value of the sequence, its e-mail is new, the
    response is the 201 carrying that id, and the gauge went up by one. *)
Theorem do_POST_atomic (e : env) (self : request) (s : state) :
  transaction s = None ->
  let s' := (UserHandler.do_POST e self s).2 in
  (committed (database s') = committed (database s)
   /\ USERS_COUNT s' = USERS_COUNT s
   /\ forall r, wfile s' = (wfile s ++ [r])%list -> status r <> 201%nat)
  \/ (exists rows row r,
        users (committed (database s)) = Some rows
        /\ users (committed (database s')) = Some (rows ++ [row])%list
        /\ u_id row = users_id_seq (database s)
        /\ Forall (fun old => u_email old <> u_email row) rows
        /\ wfile s' = (wfile s ++ [r])%list
        /\ status r = 201%nat
        /\ json_field "id" r = Some (PInt (u_id row))
        /\ USERS_COUNT s' = USERS_COUNT s + 1).
Proof.
  intros Htx s'. subst s'.
  destruct (do_POST_outcomes e self s)
    as [rows name email nm em Hw Hc Hseq Hg _ _ Hrows _ _ _ _ Hnew
       |st msg Hst Hw Hc _ Hg _ _|ex _ Hw Hc _ Hg _ _].
  - right. unfold view in *. rewrite Htx in *. cbn in *.
    exists rows, (new_user e (database s) nm em). eexists.
    split; [assumption|]. split; [rewrite Hc; reflexivity|].
    split; [reflexivity|]. split; [apply existsb_email_false, Hnew|].
    split; [exact Hw|]. repeat split. assumption.
  - left. repeat split; try assumption.
    intros r Hr. rewrite Hw in Hr. apply app_inv_head in Hr. injection Hr as <-.
    cbn. lia.
  - left. repeat split; try assumption.
    intros r Hr. rewrite Hw in Hr. symmetry in Hr.
    rewrite <- (app_nil_r (wfile s)) in Hr at 2. apply app_inv_head in Hr. discriminate.
Qed.

Lemma do_POST_atomic_witness :
  let s' := (UserHandler.do_POST calm create_bob serving).2 in
  (committed (database s') = committed (database serving)
   /\ USERS_COUNT s' = USERS_COUNT serving
   /\ forall r, wfile s' = (wfile serving ++ [r])%list -> status r <> 201%nat)
  \/ (exists rows row r,
        users (committed (database serving)) = Some rows
        /\ users (committed (database s')) = Some (rows ++ [row])%list
        /\ u_id row = users_id_seq (database serving)
        /\ Forall (fun old => u_email old <> u_email row) rows
        /\ wfile s' = (wfile serving ++ [r])%list
        /\ status r = 201%nat
        /\ json_field "id" r = Some (PInt (u_id row))
        /\ USERS_COUNT s' = USERS_COUNT serving + 1).
Proof.
  apply (do_POST_atomic calm create_bob serving). reflexivity.
Defined.

(** *** The error counter *)

Ltac count_errors :=
  cbn;
  first
    [ exists []; split; [symmetry; apply app_nil_r |]
    | eexists [_]; split; [reflexivity |] ];
  unfold inc_counter;
  rewrite ?lookup_total_insert_eq;
  rewrite ?lookup_total_insert_ne by discriminate;
  rewrite ?lookup_total_insert_eq;
  cbn; lia.

(** X5. The [http_error] counter counts the error responses of
    [UserHandler]: over a [do_GET] or a [do_POST], whatever the path and
    whatever fails, it goes up by the number of responses written with a
    status of 400 or more, and by nothing when an exception leaves the
    method without a response. *)
Theorem http_errors_counted (e : env) (self : request) (s : state) :
  (exists new,
     wfile (UserHandler.do_GET e self s).2 = (wfile s ++ new)%list
     /\ ERROR_COUNT (UserHandler.do_GET e self s).2 !!! "http_error"
        = (ERROR_COUNT s !!! "http_error" + length (List.filter is_error new))%nat)
  /\ (exists new,
        wfile (UserHandler.do_POST e self s).2 = (wfile s ++ new)%list
        /\ ERROR_COUNT (UserHandler.do_POST e self s).2 !!! "http_error"
           = (ERROR_COUNT s !!! "http_error" + length (List.filter is_error new))%nat).
Proof.
  split.
  - apply (wp_run (UserHandler.do_GET e self)
           (fun o s' => exists new, wfile s' = (wfile s ++ new)%list
              /\ ERROR_COUNT s' !!! "http_error"
                 = (ERROR_COUNT s !!! "http_error" + length (List.filter is_error new))%nat)).
    unfold UserHandler.do_GET. wp_go; count_errors.
  - apply (wp_run (UserHandler.do_POST e self)
           (fun o s' => exists new, wfile s' = (wfile s ++ new)%list
              /\ ERROR_COUNT s' !!! "http_error"
                 = (ERROR_COUNT s !!! "http_error" + length (List.filter is_error new))%nat)).
    unfold_post. wp_go; count_errors.
Qed.

(** ** Sequences of requests *)

Ltac other_key :=
  cbn; unfold inc_counter;
  rewrite ?lookup_total_insert_ne by discriminate;
  reflexivity.

Lemma do_GET_keeps_scrape_count e self s :
  REQUEST_COUNT (UserHandler.do_GET e self s).2 !!! ("GET", "/metrics", "200")
  = REQUEST_COUNT s !!! ("GET", "/metrics", "200").
Proof.
  apply (wp_run (UserHandler.do_GET e self)
           (fun o s' => REQUEST_COUNT s' !!! ("GET", "/metrics", "200")
                        = REQUEST_COUNT s !!! ("GET", "/metrics", "200"))).
  unfold UserHandler.do_GET. wp_go; other_key.
Qed.

Lemma do_POST_keeps_scrape_count e self s :
  REQUEST_COUNT (UserHandler.do_POST e self s).2 !!! ("GET", "/metrics", "200")
  = REQUEST_COUNT s !!! ("GET", "/metrics", "200").
Proof.
  apply (wp_run (UserHandler.do_POST e self)
           (fun o s' => REQUEST_COUNT s' !!! ("GET", "/metrics", "200")
                        = REQUEST_COUNT s !!! ("GET", "/metrics", "200"))).
  unfold_post. wp_go; other_key.
Qed.

Lemma scrape_effect ct gen page self s :
  let s' := (MetricsHandler.do_GET ct gen page self s).2 in
  database s' = database s /\ transaction s' = transaction s
  /\ connection_pool s' = connection_pool s
  /\ REQUEST_COUNT s' !!! ("GET", "/metrics", "200")
     = (REQUEST_COUNT s !!! ("GET", "/metrics", "200")
        + if String.eqb (path self) "/metrics" then 1 else 0)%nat.
Proof.
  cbv zeta.
  apply (wp_run (MetricsHandler.do_GET ct gen page self)
           (fun o s' => database s' = database s /\ transaction s' = transaction s
              /\ connection_pool s' = connection_pool s
              /\ REQUEST_COUNT s' !!! ("GET", "/metrics", "200")
                 = (REQUEST_COUNT s !!! ("GET", "/metrics", "200")
                    + if String.eqb (path self) "/metrics" then 1 else 0)%nat)).
  unfold MetricsHandler.do_GET.
  wp_go; cbn; repeat split; unfold inc_counter; rewrite ?lookup_total_insert_eq; lia.
Qed.

(** X6. The counter of [/metrics] requests counts the scrapes and
    nothing else: over any sequence of calls of the three handler
    methods it goes up by the number of [MetricsHandler.do_GET] calls
    whose path is exactly [/metrics]. *)
Theorem scrapes_counted ct gen page (calls : list served) : forall s : state,
  REQUEST_COUNT (serve ct gen page calls s) !!! ("GET", "/metrics", "200")
  = (REQUEST_COUNT s !!! ("GET", "/metrics", "200")
     + length (List.filter is_scrape calls))%nat.
Proof.
  induction calls as [|c calls IH]; intros s; cbn [serve List.filter].
  - cbn. lia.
  - rewrite IH. destruct c as [self|e self|e self]; cbn [serve_one is_scrape].
    + destruct (scrape_effect ct gen page self s) as (_ & _ & _ & ->).
      destruct (String.eqb (path self) "/metrics"); cbn [length]; lia.
    + rewrite do_GET_keeps_scrape_count. lia.
    + rewrite do_POST_keeps_scrape_count. lia.
Qed.

Lemma store_ok_step e self s :
  store_ok s ->
  store_ok (UserHandler.do_POST e self s).2 /\ store_ok (UserHandler.do_GET e self s).2.
Proof.
  intros [Htx Hok]. split.
  - destruct (do_POST_outcomes e self s)
      as [rows name email nm em _ Hc Hseq _ Htx' _ Hrows _ _ _ _ Hnew
         |st msg _ _ Hc Hseq _ Htx' _|ex _ _ Hc Hseq _ Htx' _].
    + split; [assumption|]. unfold view in *. rewrite Htx in *. cbn in *.
      destruct (Hok rows Hrows) as (Hemails & Hids & Hbelow).
      apply existsb_email_false in Hnew.
      intros rows' Hrows'. rewrite Hc in Hrows'. cbn in Hrows'. injection Hrows' as <-.
      rewrite !map_app. cbn. repeat split.
      * apply NoDup_app. repeat split; [assumption| |apply NoDup_singleton].
        intros x [r [-> Hr]]%list_elem_of_fmap Hx%list_elem_of_singleton.
        rewrite Forall_forall in Hnew. exact (Hnew r Hr Hx).
      * apply NoDup_app. repeat split; [assumption| |apply NoDup_singleton].
        intros x [r [-> Hr]]%list_elem_of_fmap Hx%list_elem_of_singleton.
        rewrite Forall_forall in Hbelow. specialize (Hbelow r Hr). lia.
      * apply Forall_app. split.
        -- eapply Forall_impl; [exact Hbelow|]. cbn. intros r Hr. lia.
        -- constructor; [cbn; lia | constructor].
    + split; [auto|]. intros rows Hrows. rewrite Hc in Hrows.
      destruct (Hok rows Hrows) as (Hemails & Hids & Hbelow). repeat split; try assumption.
      eapply Forall_impl; [exact Hbelow|]. cbn. intros r Hr. lia.
    + split; [auto|]. intros rows Hrows. rewrite Hc in Hrows.
      destruct (Hok rows Hrows) as (Hemails & Hids & Hbelow). repeat split; try assumption.
      eapply Forall_impl; [exact Hbelow|]. cbn. intros r Hr. lia.
  - destruct (do_GET_outcomes e self s) as (_ & _ & Hdb & Htx' & _).
    split; [auto|]. rewrite Hdb. exact Hok.
Qed.

(** X7. The handlers keep the store well formed.  From a state with no
    open transaction, distinct e-mails, distinct ids and an id sequence
    ahead of every stored id, any sequence of [do_GET], [do_POST] and
    scrape calls, whatever fails in them, ends in such a state. *)
Theorem store_ok_invariant ct gen page (calls : list served) : forall s : state,
  store_ok s -> store_ok (serve ct gen page calls s).
Proof.
  induction calls as [|c calls IH]; intros s Hs; cbn [serve]; [exact Hs|].
  apply IH. destruct c as [self|e self|e self]; cbn [serve_one].
  - destruct (scrape_effect ct gen page self s) as (Hdb & Htx & _).
    destruct Hs as [Hnone Hok]. split; [congruence|]. rewrite Hdb. exact Hok.
  - apply store_ok_step, Hs.
  - apply store_ok_step, Hs.
Qed.

Lemma store_ok_invariant_witness :
  store_ok (serve "text/plain" (fun _ => "# no samples")
              (fun st => error_response st "Not Found") sample_calls serving).
Proof.
  apply store_ok_invariant. split; [reflexivity|].
  intros rows [= <-]. cbn.
  repeat split; [apply NoDup_singleton | apply NoDup_singleton | repeat constructor].
Defined.


(** ** Create user *)

Lemma find_email_none rows em :
  existsb (fun r => String.eqb (u_email r) em) rows = false ->
  List.find (fun r => String.eqb (u_email r) em) rows = None.
Proof.
  induction rows as [|r rows IH]; cbn; [reflexivity|].
  intros [Hr Hrows]%orb_false_iff. rewrite Hr. apply IH, Hrows.
Qed.

Lemma created_state (e : env) (self : request) (s : state) (n : Z)
    (entries : list (string * pyval)) (name email : string) (rows : list user_row) :
  path self = "/users" ->
  UserHandler.header_content_length self = inr n -> n <> 0 ->
  body self = Parsed (PDict entries) ->
  assoc "name" entries = Some (PStr name) ->
  assoc "email" entries = Some (PStr email) ->
  (String.length name <= 100)%nat -> (String.length email <= 100)%nat ->
  leases e s = true ->
  (forall c, raises e c = false) ->
  transaction s = None ->
  users (committed (database s)) = Some rows ->
  existsb (fun r => String.eqb (u_email r) email) rows = false ->
  let s' := (UserHandler.do_POST e self s).2 in
  (UserHandler.do_POST e self s).1 = Normal tt
  /\ wfile s' = (wfile s ++ [json_response 201 (PDict
                   [("id", PInt (users_id_seq (database s))); ("name", PStr name);
                    ("email", PStr email);
                    ("created_at", PStr (isoformat (current_timestamp e)));
                    ("message", PStr "User created successfully");
                    ("timestamp", PStr (isoformat (now e)))])])%list
  /\ database s'
     = {| committed :=
            {| users := Some (rows ++ [new_user e (database s) name email])%list;
               idx_users_email := idx_users_email (committed (database s)) |};
          users_id_seq := users_id_seq (database s) + 1 |}
  /\ transaction s' = None
  /\ connection_pool s' = connection_pool s
  /\ USERS_COUNT s' = USERS_COUNT s + 1
  /\ REQUEST_COUNT s' = inc_counter ("POST", "/users", "201") (REQUEST_COUNT s)
  /\ ERROR_COUNT s' = ERROR_COUNT s.
Proof.
  intros Hpath Hlength Hn Hbody Hname Hemail Hnm Hem Hlease Hcalm Htx Hrows Hfresh.
  destruct (leases_inv e s Hlease) as (pl & Hpool & Hg & Hfree).
  pose proof (find_email_none rows email Hfresh) as Hfind.
  apply Nat.ltb_ge in Hnm, Hem. apply Z.eqb_neq in Hn.
  assert (Hp : String.eqb (path self) "/users" = true) by (rewrite Hpath; reflexivity).
  apply (wp_run (UserHandler.do_POST e self)
           (fun r s' => r = Normal tt /\ wfile s' = _ /\ database s' = _
                        /\ transaction s' = None /\ connection_pool s' = connection_pool s
                        /\ USERS_COUNT s' = _ /\ REQUEST_COUNT s' = _
                        /\ ERROR_COUNT s' = ERROR_COUNT s)).
  unfold UserHandler.do_POST, UserHandler.lacks_name_or_email, py_in, py_getitem.
  wp_go. cbn. rewrite ?Hpool, ?Htx. cbn. destruct pl. repeat split.
Qed.

(** X8. A create request that is well formed is carried out in full.
    With [name] and [email] texts of at most 100 characters, an e-mail
    that no stored row has, a connection to lease and no store call
    failing, [do_POST] answers 201 with the new id (the next value of the
    sequence), both texts and the creation time; the row is appended and
    committed, the sequence advances by one, the user gauge goes up by
    one, the request is counted under status 201 and no error is
    counted. *)
Theorem create_user_created (e : env) (self : request) (s : state) (n : Z)
    (entries : list (string * pyval)) (name email : string) (rows : list user_row) :
  path self = "/users" ->
  UserHandler.header_content_length self = inr n -> n <> 0 ->
  body self = Parsed (PDict entries) ->
  assoc "name" entries = Some (PStr name) ->
  assoc "email" entries = Some (PStr email) ->
  (String.length name <= 100)%nat -> (String.length email <= 100)%nat ->
  leases e s = true ->
  (forall c, raises e c = false) ->
  transaction s = None ->
  users (committed (database s)) = Some rows ->
  existsb (fun r => String.eqb (u_email r) email) rows = false ->
  let s' := (UserHandler.do_POST e self s).2 in
  (UserHandler.do_POST e self s).1 = Normal tt
  /\ wfile s' = (wfile s ++ [json_response 201 (PDict
                   [("id", PInt (users_id_seq (database s))); ("name", PStr name);
                    ("email", PStr email);
                    ("created_at", PStr (isoformat (current_timestamp e)));
                    ("message", PStr "User created successfully");
                    ("timestamp", PStr (isoformat (now e)))])])%list
  /\ users (committed (database s'))
     = Some (rows ++ [new_user e (database s) name email])%list
  /\ users_id_seq (database s') = users_id_seq (database s) + 1
  /\ transaction s' = None
  /\ USERS_COUNT s' = USERS_COUNT s + 1
  /\ REQUEST_COUNT s' = inc_counter ("POST", "/users", "201") (REQUEST_COUNT s)
  /\ ERROR_COUNT s' = ERROR_COUNT s.
Proof.
  intros Hpath Hlength Hn Hbody Hname Hemail Hnm Hem Hlease Hcalm Htx Hrows Hfresh.
  destruct (created_state e self s n entries name email rows) 
    as (Hr & Hw & Hdb & Htx' & _ & Hg & Hcount & Herr); try assumption.
  cbv zeta. rewrite Hdb. repeat split; assumption.
Qed.

Lemma create_user_created_witness :
  let s' := (UserHandler.do_POST calm create_bob serving).2 in
  (UserHandler.do_POST calm create_bob serving).1 = Normal tt
  /\ wfile s' = [json_response 201 (PDict
                   [("id", PInt 8); ("name", PStr "Bob");
                    ("email", PStr "bob@example.org");
                    ("created_at", PStr (isoformat noon));
                    ("message", PStr "User created successfully");
                    ("timestamp", PStr (isoformat noon))])]
  /\ users (committed (database s')) = Some [ann; bob]
  /\ users_id_seq (database s') = 9
  /\ transaction s' = None
  /\ USERS_COUNT s' = USERS_COUNT serving + 1
  /\ REQUEST_COUNT s' = inc_counter ("POST", "/users", "201") (REQUEST_COUNT serving)
  /\ ERROR_COUNT s' = ERROR_COUNT serving.
Proof.
  apply (create_user_created calm create_bob serving 44
           [("name", PStr "Bob"); ("email", PStr "bob@example.org")]
           "Bob" "bob@example.org" [ann]);
    try reflexivity; cbn; lia.
Defined.

Lemma find_new_user (rows : list user_row) (row : user_row) :
  Forall (fun r => u_id r <> u_id row) rows ->
  List.find (fun r => u_id r =? u_id row) (rows ++ [row]) = Some row.
Proof.
  induction rows as [|r l IH]; cbn; intros Hids.
  - rewrite Z.eqb_refl. reflexivity.
  - inversion Hids as [|? ? Hr Hl]; subst.
    apply Z.eqb_neq in Hr. rewrite Hr. apply IH, Hl.
Qed.

(** X9. What was created can be fetched.  After a create request that
    is carried out, with no stored row having the new id, a
    [GET /users/<id>] for that id, with a connection to lease and the
    cursor and the SELECT not failing, answers 200 with the row just
    stored: the same id, name, e-mail and creation time. *)
Theorem created_then_found (e : env) (self : request) (s : state) (n : Z)
    (entries : list (string * pyval)) (name email : string) (rows : list user_row)
    (e2 : env) (self2 : request) :
  path self = "/users" ->
  UserHandler.header_content_length self = inr n -> n <> 0 ->
  body self = Parsed (PDict entries) ->
  assoc "name" entries = Some (PStr name) ->
  assoc "email" entries = Some (PStr email) ->
  (String.length name <= 100)%nat -> (String.length email <= 100)%nat ->
  leases e s = true ->
  (forall c, raises e c = false) ->
  transaction s = None ->
  users (committed (database s)) = Some rows ->
  existsb (fun r => String.eqb (u_email r) email) rows = false ->
  Forall (fun r => u_id r <> users_id_seq (database s)) rows ->
  startswith "/users/" (path self2) = true ->
  isdigit (last_item (split "/" (path self2))) = true ->
  py_int (last_item (split "/" (path self2))) = Some (users_id_seq (database s)) ->
  leases e2 s = true ->
  raises e2 Cursor = false -> raises e2 (Execute SelectById) = false ->
  let s' := (UserHandler.do_POST e self s).2 in
  wfile (UserHandler.do_GET e2 self2 s').2
  = (wfile s' ++ [json_response 200
                    (PDict [("id", PInt (users_id_seq (database s)));
                            ("name", PStr name); ("email", PStr email);
                            ("created_at", PStr (isoformat (current_timestamp e)))])])%list.
Proof.
  intros Hpath Hlength Hn Hbody Hname Hemail Hnm Hem Hlease Hcalm Htx Hrows Hfresh
    Hids Hroute2 Hdigit2 Hid2 Hlease2 Hc2 Hq2.
  destruct (created_state e self s n entries name email rows) 
    as (_ & _ & Hdb & Htx' & Hpool' & _); try assumption.
  cbv zeta.
  rewrite (get_user_lookup e2 self2 _ Hroute2
             (rows ++ [new_user e (database s) name email])%list
             (users_id_seq (database s))); try assumption.
  - change (users_id_seq (database s)) with (u_id (new_user e (database s) name email)) at 1.
    rewrite find_new_user by exact Hids. reflexivity.
  - unfold leases in *. rewrite Hpool'. exact Hlease2.
  - unfold view. rewrite Htx', Hdb. reflexivity.
Qed.

Lemma created_then_found_witness :
  wfile (UserHandler.do_GET calm (get "/users/8")
           (UserHandler.do_POST calm create_bob serving).2).2
  = (wfile (UserHandler.do_POST calm create_bob serving).2
     ++ [json_response 200 (UserHandler.user_json bob)])%list.
Proof.
  apply (created_then_found calm create_bob serving 44
           [("name", PStr "Bob"); ("email", PStr "bob@example.org")]
           "Bob" "bob@example.org" [ann] calm (get "/users/8"));
    try reflexivity; try (cbn; lia).
  repeat constructor. cbn. lia.
Defined.



Lemma leases_false_inv e s :
  leases e s = false ->
  connection_pool s = None
  \/ exists p, connection_pool s = Some p
               /\ getconn_raises e || (maxconn p <=? used p)%nat = true.
Proof.
  unfold leases. destruct (connection_pool s) as [p|]; [|left; reflexivity].
  intros H. right. exists p. split; [reflexivity|].
  destruct (getconn_raises e), (maxconn p <=? used p)%nat; try reflexivity; discriminate H.
Qed.

(** X11. A create request that passes validation when no connection can
    be leased (no pool, pool exhausted, or [getconn] failing) is answered
    503 "Database unavailable", and the store is left as it was. *)
Theorem create_user_unavailable (e : env) (self : request) (s : state) (n : Z)
    (entries : list (string * pyval)) (name email : pyval) :
  path self = "/users" ->
  UserHandler.header_content_length self = inr n -> n <> 0 ->
  body self = Parsed (PDict entries) ->
  assoc "name" entries = Some name -> assoc "email" entries = Some email ->
  leases e s = false ->
  (UserHandler.do_POST e self s).1 = Normal tt
  /\ wfile (UserHandler.do_POST e self s).2
     = (wfile s ++ [error_response 503 "Database unavailable"])%list
  /\ database (UserHandler.do_POST e self s).2 = database s.
Proof.
  intros Hpath Hcl Hn Hb Hname Hemail Hl. apply Z.eqb_neq in Hn.
  assert (Hp : String.eqb (path self) "/users" = true) by (rewrite Hpath; reflexivity).
  apply (wp_run (UserHandler.do_POST e self)
           (fun r s' => r = Normal tt /\ wfile s' = _ /\ database s' = _)).
  unfold UserHandler.do_POST, UserHandler.lacks_name_or_email, py_in, py_getitem.
  destruct (leases_false_inv e s Hl) as [Hpool|(p & Hpool & Hfull)];
    wp_go; cbn; repeat split.
Qed.

Lemma create_user_unavailable_witness :
  (UserHandler.do_POST outage create_bob serving).1 = Normal tt
  /\ wfile (UserHandler.do_POST outage create_bob serving).2
     = [error_response 503 "Database unavailable"]
  /\ database (UserHandler.do_POST outage create_bob serving).2 = one_user.
Proof.
  apply (create_user_unavailable outage create_bob serving 44
           [("name", PStr "Bob"); ("email", PStr "bob@example.org")]
           (PStr "Bob") (PStr "bob@example.org"));
    try reflexivity. lia.
Defined.

(** X12. The three 400 rejections of [POST /users] come before the
    store is asked for anything: with a zero Content-Length, a body that
    is not JSON, or a JSON object without [name] or [email], the answer
    is 400, no connection is requested (a store out of reach is neither
    noticed nor counted) and the tables are untouched. *)
Theorem post_rejected_before_lease (e : env) (self : request) (s : state)
    (n : Z) (entries : list (string * pyval)) :
  path self = "/users" ->
  UserHandler.header_content_length self = inr n ->
  n = 0 \/ body self = NotJson
  \/ (body self = Parsed (PDict entries)
      /\ (assoc "name" entries = None \/ assoc "email" entries = None)) ->
  let r := UserHandler.do_POST e self s in
  r.1 = Normal tt
  /\ (exists message, wfile r.2 = (wfile s ++ [error_response 400 message])%list)
  /\ ERROR_COUNT r.2 !!! "db_connection" = ERROR_COUNT s !!! "db_connection"
  /\ trace r.2 = trace s
  /\ database r.2 = database s
  /\ transaction r.2 = transaction s.
Proof.
  intros Hpath Hcl Hcase.
  assert (Hp : String.eqb (path self) "/users" = true) by (rewrite Hpath; reflexivity).
  apply (wp_run (UserHandler.do_POST e self)
           (fun o s' => o = Normal tt
              /\ (exists message, wfile s' = (wfile s ++ [error_response 400 message])%list)
              /\ ERROR_COUNT s' !!! "db_connection" = ERROR_COUNT s !!! "db_connection"
              /\ trace s' = trace s /\ database s' = database s
              /\ transaction s' = transaction s)).
  unfold UserHandler.do_POST, UserHandler.json_loads, UserHandler.lacks_name_or_email,
    py_in, py_getitem.
  destruct Hcase as [->|[Hb|[Hb [Hmiss|Hmiss]]]];
    try (destruct (n =? 0) eqn:Hn);
    wp_go; cbn; repeat split;
    first [ eexists; reflexivity
          | unfold inc_counter; rewrite lookup_total_insert_ne by discriminate; reflexivity ].
Qed.

Lemma post_rejected_before_lease_witness :
  let r := UserHandler.do_POST outage (post "/users" "2" NotJson) serving in
  r.1 = Normal tt
  /\ (exists message, wfile r.2 = (wfile serving ++ [error_response 400 message])%list)
  /\ ERROR_COUNT r.2 !!! "db_connection" = ERROR_COUNT serving !!! "db_connection"
  /\ trace r.2 = trace serving
  /\ database r.2 = database serving
  /\ transaction r.2 = transaction serving.
Proof.
  apply (post_rejected_before_lease outage (post "/users" "2" NotJson) serving 2 []);
    try reflexivity.
  right. left. reflexivity.
Defined.



(** X14. A body that is valid JSON but a bare scalar ([null], a
    boolean or a number) makes the membership test raise: [TypeError]
    leaves [do_POST], no response is written, no error is counted, and
    the pool and the store are untouched. *)
Theorem post_scalar_body (e : env) (self : request) (s : state) (n : Z) (v : pyval) :
  path self = "/users" ->
  UserHandler.header_content_length self = inr n -> n <> 0 ->
  body self = Parsed v -> is_scalar v = true ->
  let r := UserHandler.do_POST e self s in
  r.1 = Raised TypeError /\ wfile r.2 = wfile s
  /\ connection_pool r.2 = connection_pool s /\ ERROR_COUNT r.2 = ERROR_COUNT s
  /\ database r.2 = database s.
Proof.
  intros Hpath Hcl Hn%Z.eqb_neq Hb Hv.
  assert (Hp : String.eqb (path self) "/users" = true) by (rewrite Hpath; reflexivity).
  apply (wp_run (UserHandler.do_POST e self)
           (fun o s' => o = Raised TypeError /\ wfile s' = wfile s
                        /\ connection_pool s' = _ /\ ERROR_COUNT s' = _ /\ database s' = _)).
  unfold UserHandler.do_POST, UserHandler.lacks_name_or_email, py_in, py_getitem.
  destruct v; try discriminate Hv; wp_go; cbn; repeat split.
Qed.

Lemma post_scalar_body_witness :
  let r := UserHandler.do_POST calm (post "/users" "1" (Parsed (PInt 7))) serving in
  r.1 = Raised TypeError /\ wfile r.2 = wfile serving
  /\ connection_pool r.2 = connection_pool serving
  /\ ERROR_COUNT r.2 = ERROR_COUNT serving
  /\ database r.2 = database serving.
Proof.
  apply (post_scalar_body calm (post "/users" "1" (Parsed (PInt 7))) serving 1 (PInt 7));
    try reflexivity. lia.
Defined.

(** X15. A body that is a JSON array or a JSON text in which both
    [name] and [email] are found passes validation, a connection is
    leased, and the subscript [data['email']] then fails: with the
    rollback working the answer is 500 "Internal server error", the
    store is untouched and the connection is given back. *)
Theorem post_sequence_body (e : env) (self : request) (s : state) (n : Z) (v : pyval) :
  path self = "/users" ->
  UserHandler.header_content_length self = inr n -> n <> 0 ->
  body self = Parsed v -> names_found v = true ->
  leases e s = true -> raises e Rollback = false ->
  let r := UserHandler.do_POST e self s in
  r.1 = Normal tt
  /\ wfile r.2 = (wfile s ++ [error_response 500 "Internal server error"])%list
  /\ database r.2 = database s
  /\ connection_pool r.2 = connection_pool s.
Proof.
  intros Hpath Hcl Hn%Z.eqb_neq Hb Hv Hl Hroll.
  assert (Hp : String.eqb (path self) "/users" = true) by (rewrite Hpath; reflexivity).
  destruct (leases_inv e s Hl) as (pl & Hpool & Hg & Hfree).
  apply (wp_run (UserHandler.do_POST e self)
           (fun o s' => o = Normal tt /\ wfile s' = _ /\ database s' = _
                        /\ connection_pool s' = _)).
  unfold UserHandler.do_POST, UserHandler.lacks_name_or_email, py_in, py_getitem.
  destruct v; try discriminate Hv; cbn in Hv; apply andb_true_iff in Hv as [Hv1 Hv2];
    wp_go; cbn; rewrite ?Hpool; cbn; destruct pl; repeat split.
Qed.

Lemma post_sequence_body_witness :
  let self := post "/users" "17" (Parsed (PList [PStr "name"; PStr "email"])) in
  let r := UserHandler.do_POST calm self serving in
  r.1 = Normal tt
  /\ wfile r.2 = [error_response 500 "Internal server error"]
  /\ database r.2 = database serving
  /\ connection_pool r.2 = connection_pool serving.
Proof.
  apply (post_sequence_body calm
           (post "/users" "17" (Parsed (PList [PStr "name"; PStr "email"]))) serving 17
           (PList [PStr "name"; PStr "email"]));
    try reflexivity. lia.
Defined.

(** X16. A [POST] to any path other than exactly [/users] is answered
    404 "Not found" and counted under endpoint [unknown]; headers and
    body are not read, so nothing can raise, and the store and the pool
    are untouched. *)
Theorem post_unknown_route (e : env) (self : request) (s : state) :
  path self <> "/users" ->
  let r := UserHandler.do_POST e self s in
  r.1 = Normal tt
  /\ wfile r.2 = (wfile s ++ [error_response 404 "Not found"])%list
  /\ REQUEST_COUNT r.2 = inc_counter ("POST", "unknown", "404") (REQUEST_COUNT s)
  /\ ERROR_COUNT r.2 = inc_counter "http_error" (ERROR_COUNT s)
  /\ database r.2 = database s
  /\ connection_pool r.2 = connection_pool s.
Proof.
  intros H1%String.eqb_neq.
  apply (wp_run (UserHandler.do_POST e self)
           (fun o s' => o = Normal tt /\ wfile s' = _ /\ REQUEST_COUNT s' = _
                        /\ ERROR_COUNT s' = _ /\ database s' = _ /\ connection_pool s' = _)).
  unfold UserHandler.do_POST. wp_go. cbn. repeat split.
Qed.

Lemma post_unknown_route_witness :
  let r := UserHandler.do_POST outage (post "/users/" "12 bytes" NotUtf8) serving in
  r.1 = Normal tt
  /\ wfile r.2 = [error_response 404 "Not found"]
  /\ REQUEST_COUNT r.2 = inc_counter ("POST", "unknown", "404") (REQUEST_COUNT serving)
  /\ ERROR_COUNT r.2 = inc_counter "http_error" (ERROR_COUNT serving)
  /\ database r.2 = database serving
  /\ connection_pool r.2 = connection_pool serving.
Proof.
  apply (post_unknown_route outage (post "/users/" "12 bytes" NotUtf8) serving).
  discriminate.
Defined.


(** ** Reading users *)

(** X17. [GET /users] when no connection can be leased (no pool, pool
    exhausted, or [getconn] failing) is answered 503 "Database
    unavailable"; the user gauge keeps its last value and the store is
    untouched. *)
Theorem list_users_unavailable (e : env) (self : request) (s : state) :
  path self = "/users" -> leases e s = false ->
  wfile (UserHandler.do_GET e self s).2
  = (wfile s ++ [error_response 503 "Database unavailable"])%list
  /\ USERS_COUNT (UserHandler.do_GET e self s).2 = USERS_COUNT s
  /\ database (UserHandler.do_GET e self s).2 = database s.
Proof.
  intros Hpath Hl.
  assert (H1 : String.eqb (path self) "/health" = false) by (rewrite Hpath; reflexivity).
  assert (H2 : String.eqb (path self) "/users" = true) by (rewrite Hpath; reflexivity).
  apply (wp_run (UserHandler.do_GET e self)
           (fun r s' => wfile s' = _ /\ USERS_COUNT s' = _ /\ database s' = _)).
  unfold UserHandler.do_GET.
  destruct (leases_false_inv e s Hl) as [Hpool|(p & Hpool & Hfull)];
    wp_go; cbn; repeat split.
Qed.

Lemma list_users_unavailable_witness :
  wfile (UserHandler.do_GET outage (get "/users") serving).2
  = [error_response 503 "Database unavailable"]
  /\ USERS_COUNT (UserHandler.do_GET outage (get "/users") serving).2 = USERS_COUNT serving
  /\ database (UserHandler.do_GET outage (get "/users") serving).2 = database serving.
Proof.
  apply (list_users_unavailable outage (get "/users") serving); reflexivity.
Defined.

(** X18. [GET /users] with a connection leased, when the cursor or the
    SELECT fails or the table does not exist, is answered 500 "Internal
    server error"; the user gauge keeps its last value. *)
Theorem list_users_store_failure (e : env) (self : request) (s : state) :
  path self = "/users" -> leases e s = true ->
  raises e Cursor = true \/ raises e (Execute SelectAll) = true \/ users (view s) = None ->
  wfile (UserHandler.do_GET e self s).2
  = (wfile s ++ [error_response 500 "Internal server error"])%list
  /\ USERS_COUNT (UserHandler.do_GET e self s).2 = USERS_COUNT s.
Proof.
  intros Hpath Hl Hfail.
  assert (H1 : String.eqb (path self) "/health" = false) by (rewrite Hpath; reflexivity).
  assert (H2 : String.eqb (path self) "/users" = true) by (rewrite Hpath; reflexivity).
  destruct (leases_inv e s Hl) as (pl & Hpool & Hg & Hfree).
  apply (wp_run (UserHandler.do_GET e self) (fun r s' => wfile s' = _ /\ USERS_COUNT s' = _)).
  unfold UserHandler.do_GET. wp_go; cbn; try (split; reflexivity).
  exfalso. unfold view in *. cbn in *. destruct Hfail as [?|[?|?]]; congruence.
Qed.

Lemma list_users_store_failure_witness :
  wfile (UserHandler.do_GET no_cursor (get "/users") serving).2
  = [error_response 500 "Internal server error"]
  /\ USERS_COUNT (UserHandler.do_GET no_cursor (get "/users") serving).2
     = USERS_COUNT serving.
Proof.
  apply (list_users_store_failure no_cursor (get "/users") serving); try reflexivity.
  left. reflexivity.
Defined.

(** X19. [GET /users/<id>] with an id that passes [isdigit]: 503 when no
    connection can be leased; 500 when the id does not read as an
    integer, when the cursor or the SELECT fails, or when the table does
    not exist. *)
Theorem get_user_failure_responses (e : env) (self : request) (s : state) :
  startswith "/users/" (path self) = true ->
  isdigit (last_item (split "/" (path self))) = true ->
  let s' := (UserHandler.do_GET e self s).2 in
  (leases e s = false ->
   wfile s' = (wfile s ++ [error_response 503 "Database unavailable"])%list)
  /\ (leases e s = true ->
      py_int (last_item (split "/" (path self))) = None
      \/ raises e Cursor = true \/ raises e (Execute SelectById) = true
      \/ users (view s) = None ->
      wfile s' = (wfile s ++ [error_response 500 "Internal server error"])%list).
Proof.
  intros Hroute Hd. cbv zeta. split.
  - intros Hl. apply (get_user_unavailable e self s Hroute Hd Hl).
  - intros Hl Hfail.
    destruct (py_int (last_item (split "/" (path self)))) as [n|] eqn:Hn.
    + apply (get_user_store_failure e self s Hroute n Hd Hl Hn).
      destruct Hfail as [?|[?|[?|?]]]; [discriminate|auto..].
    + apply (get_user_not_an_int e self s Hroute Hd Hl Hn).
Qed.

Lemma get_user_failure_responses_witness :
  wfile (UserHandler.do_GET outage (get "/users/7") serving).2
  = [error_response 503 "Database unavailable"]
  /\ wfile (UserHandler.do_GET no_cursor (get "/users/7") serving).2
     = [error_response 500 "Internal server error"].
Proof.
  split.
  - apply (get_user_failure_responses outage (get "/users/7") serving eq_refl eq_refl).
    reflexivity.
  - apply (get_user_failure_responses no_cursor (get "/users/7") serving eq_refl eq_refl).
    + reflexivity.
    + right. left. reflexivity.
Defined.

(** X20. A [GET] for a path that is none of [/health], [/users] and
    [/users/...] is answered 404 "Not found" and counted under endpoint
    [unknown] and as an [http_error]; the pool is not asked.  A query
    string makes a route unknown ([/users?limit=5] is answered 404),
    while the latency is recorded under the path before the question
    mark. *)
Theorem get_unknown_route (e : env) (self : request) (s : state) :
  path self <> "/health" -> path self <> "/users" ->
  startswith "/users/" (path self) = false ->
  let r := UserHandler.do_GET e self s in
  wfile r.2 = (wfile s ++ [error_response 404 "Not found"])%list
  /\ REQUEST_COUNT r.2 = inc_counter ("GET", "unknown", "404") (REQUEST_COUNT s)
  /\ ERROR_COUNT r.2 = inc_counter "http_error" (ERROR_COUNT s)
  /\ REQUEST_LATENCY r.2
     = observe (first_item (split "?" (path self))) (time_end e - time_start e)
         (REQUEST_LATENCY s)
  /\ connection_pool r.2 = connection_pool s
  /\ transaction r.2 = transaction s.
Proof.
  intros H1%String.eqb_neq H2%String.eqb_neq H3.
  apply (wp_run (UserHandler.do_GET e self)
           (fun o s' => wfile s' = _ /\ REQUEST_COUNT s' = _ /\ ERROR_COUNT s' = _
                        /\ REQUEST_LATENCY s' = _
                        /\ connection_pool s' = _ /\ transaction s' = _)).
  unfold UserHandler.do_GET. wp_go. cbn. repeat split.
Qed.

Lemma get_unknown_route_witness :
  let r := UserHandler.do_GET calm (get "/users?limit=5") serving in
  wfile r.2 = [error_response 404 "Not found"]
  /\ REQUEST_COUNT r.2 = inc_counter ("GET", "unknown", "404") (REQUEST_COUNT serving)
  /\ ERROR_COUNT r.2 = inc_counter "http_error" (ERROR_COUNT serving)
  /\ REQUEST_LATENCY r.2 = observe "/users" 7 (REQUEST_LATENCY serving)
  /\ connection_pool r.2 = connection_pool serving
  /\ transaction r.2 = transaction serving.
Proof.
  apply (get_unknown_route calm (get "/users?limit=5") serving);
    [discriminate | discriminate | reflexivity].
Defined.

(** X21. [get_db_connection] counts a failed lease under
    [db_connection] when the pool object exists ([getconn] raised) and
    not at all when the pool was never built; either way it returns
    [None] and leaves the pool as it was. *)
Theorem failed_lease_counted (e : env) (s : state) :
  leases e s = false ->
  (get_db_connection e s).1 = Normal None
  /\ connection_pool (get_db_connection e s).2 = connection_pool s
  /\ ERROR_COUNT (get_db_connection e s).2
     = if bool_decide (is_Some (connection_pool s))
       then inc_counter "db_connection" (ERROR_COUNT s) else ERROR_COUNT s.
Proof.
  intros Hl.
  apply (wp_run (get_db_connection e)
           (fun r s' => r = Normal None /\ connection_pool s' = connection_pool s
                        /\ ERROR_COUNT s' = _)).
  unfold get_db_connection.
  destruct (leases_false_inv e s Hl) as [Hpool|(p & Hpool & Hfull)];
    wp_go; cbn; rewrite ?Hpool; repeat split.
Qed.

Lemma failed_lease_counted_witness :
  (get_db_connection outage serving).1 = Normal None
  /\ connection_pool (get_db_connection outage serving).2 = connection_pool serving
  /\ ERROR_COUNT (get_db_connection outage serving).2
     = inc_counter "db_connection" (ERROR_COUNT serving).
Proof.
  apply (failed_lease_counted outage serving). reflexivity.
Defined.


(** ** Schema bootstrap *)



(** ** Background samplers *)


Lemma update_metrics_run n : forall s,
  let r := update_metrics_periodically n s in
  r.1 = Normal tt
  /\ connection_pool r.2 = connection_pool s
  /\ database r.2 = database s
  /\ wfile r.2 = wfile s
  /\ trace r.2 = (trace s ++ repeat (Sleep 30) n)%list
  /\ DB_CONNECTIONS r.2
     = match n, connection_pool s with
       | S _, Some p => Z.of_nat (maxconn p) - Z.of_nat (used p)
       | _, _ => DB_CONNECTIONS s
       end.
Proof.
  induction n as [|n IH]; intros s.
  - cbn. rewrite app_nil_r. repeat split.
  - cbn [update_metrics_periodically repeat].
    revert IH. generalize (update_metrics_periodically n). intros rec IH.
    apply (wp_run _ (fun o s' => o = Normal tt /\ connection_pool s' = connection_pool s
                        /\ database s' = database s /\ wfile s' = wfile s
                        /\ trace s' = (trace s ++ Sleep 30 :: repeat (Sleep 30) n)%list
                        /\ DB_CONNECTIONS s' = _)).
    wp_go.
    all: match goal with
         | |- wp ?m _ ?s1 => is_var m;
             destruct (IH s1) as (Hr & Hp & Hd & Hw & Ht & Hg); clear IH;
             unfold wp; rewrite Hr, Hp, Hd, Hw, Ht, Hg; clear Hr Hp Hd Hw Ht Hg; cbn
         end.
    all: match goal with H : connection_pool _ = _ |- _ => rewrite ?H end.
    all: rewrite <- app_assoc.
    all: repeat split; try assumption; destruct n; reflexivity.
Qed.





(** ** The load simulator *)




(** ** The pool sampler *)

(** X25. [update_metrics_periodically] never fails and touches only the
    gauge: [n] turns of its loop return normally, leave pool, store and
    responses alone and sleep 30 seconds [n] times; after one turn or
    more the gauge is [maxconn] minus the connections on lease when a
    pool exists, and keeps its value when none does. *)
Theorem update_metrics_effect (n : nat) (s : state) :
  let r := update_metrics_periodically n s in
  r.1 = Normal tt
  /\ connection_pool r.2 = connection_pool s
  /\ database r.2 = database s
  /\ wfile r.2 = wfile s
  /\ trace r.2 = (trace s ++ repeat (Sleep 30) n)%list
  /\ DB_CONNECTIONS r.2
     = match n, connection_pool s with
       | S _, Some p => Z.of_nat (maxconn p) - Z.of_nat (used p)
       | _, _ => DB_CONNECTIONS s
       end.
Proof. apply update_metrics_run. Qed.


